(** * TradingEngine: a price-time-priority matching engine

    Shallow embedding of [python_trading_engine.py].

    - Python integers are [Z]; strings are [string].
    - An [OrderList] is a singly linked list reached through [head]; a node
      together with its [next] chain is the Rocq list starting at that node,
      so a reference to a node is the suffix of the queue that begins there
      and [None] is the empty list.
    - Every order object is created by [TradingEngine.add_order] and linked
      into exactly one queue, so updating the quantity of the order at the
      head of a queue is replacing the head element.
    - [print] appends to an output trace; an uncaught exception is an
      [outcome] next to the state reached when it was raised. *)

From Stdlib Require Import ZArith List String Bool Lia DecimalString.
From stdpp Require Import base decidable option list strings sorting.
From Equations Require Import Equations.
Import ListNotations.

Open Scope Z_scope.

(** ** Python values used by the engine *)

(** [str(i)] for an integer [i]. *)
Definition str (i : Z) : string := NilZero.string_of_int (Z.to_int i).

(** What a call evaluates to. *)
Inductive py_value : Type :=
| PyNone
| PyInt (i : Z).

Inductive py_exception : Type :=
| IndexError.

Inductive outcome : Type :=
| Returned (v : py_value)
| Raised (e : py_exception).

(** [l[i]] on a Python list: indices [0 .. len-1] count from the front,
    [-len .. -1] from the back, anything else raises [IndexError].  The
    result is the position from the front. *)
Definition py_index {A : Type} (l : list A) (i : Z) : option nat :=
  let n := Z.of_nat (length l) in
  if (0 <=? i) && (i <? n) then Some (Z.to_nat i)
  else if (- n <=? i) && (i <? 0) then Some (Z.to_nat (i + n))
  else None.

(** ** class AtomicCounter *)

Module AtomicCounter.

Definition t : Type := Z.

Definition init (initial : Z) : t := initial.

(** [increment]: [self.value += 1; return self.value].  The pair is the
    returned value and the new counter. *)
Definition increment (self : t) : Z * t := (self + 1, self + 1).

End AtomicCounter.

(** ** class Order *)

Record Order : Type := mkOrder {
  order_type : string;
  ticker : string;
  quantity : Z;
  price : Z;
  order_id : Z
}.

#[global] Instance Order_eq_dec : EqDecision Order.
Proof. solve_decision. Defined.

(** [order.quantity = q] *)
Definition set_quantity (o : Order) (q : Z) : Order :=
  {| order_type := order_type o; ticker := ticker o; quantity := q;
     price := price o; order_id := order_id o |}.

(** ** class OrderList *)

Module OrderList.

(** [self.head] with the [next] links behind it. *)
Definition t : Type := list Order.

Definition init : t := [].

(** [_compare_and_swap_head(expected, new)]: the flag returned and the
    head afterwards. *)
Definition _compare_and_swap_head (self expected new : t) : bool * t :=
  if bool_decide (self = expected) then (true, new) else (false, self).

(** [_compare_and_swap_next(node, new)].  [pre] is the queue up to and
    including [node], [node_next] is [node.next] and [new_next] is
    [new.next]. *)
Definition _compare_and_swap_next (pre : list Order) (node_next : t)
    (new : Order) (new_next : t) : bool * t :=
  if bool_decide (node_next = new_next) then (true, pre ++ new :: new_next)
  else (false, pre ++ node_next).

(** The test of line 35 after [not current_head]. *)
Definition goes_first (new_order current_head : Order) : bool :=
  (String.eqb (order_type new_order) "Buy"
     && (price new_order >? price current_head))
  || (String.eqb (order_type new_order) "Sell"
     && (price new_order <? price current_head)).

(** The test of the inner [while] of line 41 after [current.next]. *)
Definition walks_past (new_order next : Order) : bool :=
  (String.eqb (order_type new_order) "Buy"
     && (price next >=? price new_order))
  || (String.eqb (order_type new_order) "Sell"
     && (price next <=? price new_order)).

(** The inner [while]: starting at [current], whose [next] is [rest],
    advance while [walks_past].  Returns the nodes visited, the last of
    which is the final [current], and that node's [next]. *)
Fixpoint walk (new_order current : Order) (rest : t) : list Order * t :=
  match rest with
  | [] => ([current], [])
  | next :: rest' =>
      if walks_past new_order next then
        let '(pre, post) := walk new_order next rest' in
        (current :: pre, post)
      else ([current], rest)
  end.

(** One pass through the body of [while True] in [add_order]: whether
    the pass reached [break], and the queue afterwards. *)
Definition add_order_attempt (self : t) (new_order : Order) : bool * t :=
  let current_head := self in
  match current_head with
  | [] => _compare_and_swap_head self current_head (new_order :: current_head)
  | h :: tl =>
      if goes_first new_order h then
        _compare_and_swap_head self current_head (new_order :: current_head)
      else
        let '(pre, post) := walk new_order h tl in
        _compare_and_swap_next pre post new_order post
  end.

(** [while True] with a bound on the number of passes. *)
Fixpoint add_order_loop (fuel : nat) (self : t) (new_order : Order)
    : option t :=
  match fuel with
  | O => None
  | S fuel' =>
      let '(done, self') := add_order_attempt self new_order in
      if done then Some self' else add_order_loop fuel' self' new_order
  end.

(** [add_order]: the queue after the first pass ([add_order_loop_once]
    below shows that the loop leaves at the first pass). *)
Definition add_order (self : t) (new_order : Order) : t :=
  snd (add_order_attempt self new_order).

(** One pass through [while True] in [pop_head]: [None] when the
    compare-and-swap fails, else the value returned and the queue. *)
Definition pop_head_attempt (self : t) : option (option Order * t) :=
  let current_head := self in
  match current_head with
  | [] => Some (None, self)
  | h :: new_head =>
      let '(done, self') := _compare_and_swap_head self current_head new_head in
      if done then Some (Some h, self') else None
  end.

Fixpoint pop_head_loop (fuel : nat) (self : t) : option (option Order * t) :=
  match fuel with
  | O => None
  | S fuel' =>
      match pop_head_attempt self with
      | Some r => Some r
      | None => pop_head_loop fuel' self
      end
  end.

(** [pop_head]: the order returned and the queue afterwards. *)
Definition pop_head (self : t) : option Order * t :=
  match self with
  | [] => (None, [])
  | h :: new_head => (Some h, new_head)
  end.

End OrderList.

(** ** class OrderBook *)

Module OrderBook.

Record t : Type := mk {
  buy_orders : OrderList.t;
  sell_orders : OrderList.t
}.

Definition init : t := {| buy_orders := OrderList.init; sell_orders := OrderList.init |}.

(** The local variables of one iteration of [match_orders] when it
    reaches [print]: the two heads as they are before the decrement. *)
Record trade : Type := mkTrade {
  buy_order : Order;
  sell_order : Order;
  traded_quantity : Z;
  trade_price : Z
}.

(** The line written by [print]. *)
Definition printed (m : trade) : string :=
  ("Matched Order: " ++ ticker (buy_order m)
     ++ " | Price: " ++ str (trade_price m)
     ++ " | Quantity: " ++ str (traded_quantity m))%string.

(** The condition of the [while] of [match_orders]. *)
Definition crosses (self : t) : bool :=
  match buy_orders self, sell_orders self with
  | b :: _, s :: _ => price b >=? price s
  | _, _ => false
  end.

(** One iteration of [match_orders]: [None] when the condition of the
    [while] is false, else the trade printed and the book afterwards. *)
Definition match_iter (self : t) : option (trade * t) :=
  match buy_orders self, sell_orders self with
  | b :: buys, s :: sells =>
      if price b >=? price s then
        let traded_quantity := Z.min (quantity b) (quantity s) in
        let trade_price := price s in
        let b' := set_quantity b (quantity b - traded_quantity) in
        let s' := set_quantity s (quantity s - traded_quantity) in
        let buys' :=
          if quantity b' =? 0 then snd (OrderList.pop_head (b' :: buys))
          else b' :: buys in
        let sells' :=
          if quantity s' =? 0 then snd (OrderList.pop_head (s' :: sells))
          else s' :: sells in
        Some (mkTrade b s traded_quantity trade_price,
              {| buy_orders := buys'; sell_orders := sells' |})
      else None
  | _, _ => None
  end.

(** The [while] of [match_orders] with a bound on the number of
    iterations: [None] when the bound is reached before the loop ends. *)
Fixpoint match_loop (fuel : nat) (self : t) : option (list trade * t) :=
  match fuel with
  | O => None
  | S fuel' =>
      match match_iter self with
      | None => Some ([], self)
      | Some (m, self') =>
          match match_loop fuel' self' with
          | Some (ms, self'') => Some (m :: ms, self'')
          | None => None
          end
      end
  end.

(** Number of orders resting in the book. *)
Definition size (self : t) : nat :=
  (length (buy_orders self) + length (sell_orders self))%nat.

Definition inspect {A : Type} (a : A) : {b : A | a = b} := exist _ a eq_refl.

(** [match_orders]: the trades printed, in order, and the book when the
    loop ends.  Every iteration unlinks an order, so the recursion is
    well founded on [size]. *)
Equations? match_orders (self : t) : list trade * t by wf (size self) lt :=
  match_orders self with inspect (match_iter self) => {
    | exist _ None _ => ([], self)
    | exist _ (Some (m, self')) _ =>
        let r := match_orders self' in (m :: fst r, snd r) }.
Proof.
  destruct self as [[|b buys] [|s sells]]; cbn in *; try discriminate.
  destruct (price b >=? price s); [|discriminate].
  match goal with H : Some _ = Some _ |- _ => inversion H; subst; clear H end.
  unfold size; cbn.
  destruct (Z.min_spec (quantity b) (quantity s)) as [[_ ->]|[_ ->]];
    rewrite Z.sub_diag; cbn;
    repeat match goal with |- context [if ?c then _ else _] => destruct c end;
    cbn; lia.
Qed.

(** [add_order]: the trades printed and the book afterwards. *)
Definition add_order (self : t) (new_order : Order) : list trade * t :=
  let self' :=
    if String.eqb (order_type new_order) "Buy" then
      {| buy_orders := OrderList.add_order (buy_orders self) new_order;
         sell_orders := sell_orders self |}
    else
      {| buy_orders := buy_orders self;
         sell_orders := OrderList.add_order (sell_orders self) new_order |} in
  match_orders self'.

End OrderBook.

(** ** class TradingEngine *)

Module TradingEngine.

Record t : Type := mk {
  order_books : list OrderBook.t;
  order_id_counter : AtomicCounter.t
}.

Definition init : t :=
  {| order_books := replicate 1024 OrderBook.init;
     order_id_counter := AtomicCounter.init 0 |}.

(** What a call leaves behind: the engine, the trades printed and
    whether the call returned or raised. *)
Record result : Type := mkResult {
  engine : t;
  stdout : list OrderBook.trade;
  out : outcome
}.

(** The order constructed on line 110. *)
Definition new_order (self : t) (order_type : string)
    (ticker_index quantity price : Z) : Order :=
  mkOrder order_type ("STOCK" ++ str ticker_index)%string quantity price
    (fst (AtomicCounter.increment (order_id_counter self))).

(** [add_order]: line 110 increments the counter and builds the order,
    line 111 indexes [order_books] and calls the book's [add_order]; the
    function has no [return] statement.  [py_index] only returns
    positions inside the list ([py_index_Some] below), so the inner
    [None] branch is never taken. *)
Definition add_order (self : t) (order_type : string)
    (ticker_index quantity price : Z) : result :=
  let order := new_order self order_type ticker_index quantity price in
  let counter' := snd (AtomicCounter.increment (order_id_counter self)) in
  match py_index (order_books self) (ticker_index - 1) with
  | None =>
      mkResult {| order_books := order_books self; order_id_counter := counter' |}
               [] (Raised IndexError)
  | Some k =>
      match order_books self !! k with
      | None =>
          mkResult {| order_books := order_books self; order_id_counter := counter' |}
                   [] (Raised IndexError)
      | Some book =>
          let '(trades, book') := OrderBook.add_order book order in
          mkResult {| order_books := <[k := book']> (order_books self);
                      order_id_counter := counter' |}
                   trades (Returned PyNone)
      end
  end.

(** A submission as the caller writes it. *)
Record call : Type := mkCall {
  c_type : string;
  c_ticker_index : Z;
  c_quantity : Z;
  c_price : Z
}.

(** A sequence of calls, as in [simulate_trading]: an uncaught exception
    ends the run.  Returns the last result, with the output of all
    calls. *)
Fixpoint run (self : t) (calls : list call) : result :=
  match calls with
  | [] => mkResult self [] (Returned PyNone)
  | c :: calls' =>
      let r := add_order self (c_type c) (c_ticker_index c) (c_quantity c) (c_price c) in
      match out r with
      | Raised e => r
      | Returned _ =>
          let r' := run (engine r) calls' in
          mkResult (engine r') (stdout r ++ stdout r') (out r')
      end
  end.

(** [simulate_trading(num_orders)]: the values drawn by [random.choice]
    and [random.randint] in the successive iterations are given as the
    list [draws], one [call] per iteration, so [num_orders] is its length
    ([random_draw] below states the ranges the draws come from). *)
Definition simulate_trading (self : t) (draws : list call) : result :=
  run self draws.

End TradingEngine.

(** ** Predicates of the specification *)

(** The two sides of a book, as the specification names them. *)
Inductive side : Type := Buy | Sell.

Definition side_name (s : side) : string :=
  match s with Buy => "Buy"%string | Sell => "Sell"%string end.

(** [no_worse s a b]: on side [s], the price of [a] is at least as good as
    the price of [b] (higher for a buyer, lower for a seller). *)
Definition no_worse (s : side) (a b : Order) : Prop :=
  match s with
  | Buy => price b <= price a
  | Sell => price a <= price b
  end.

(** Every adjacent pair of the queue is in priority order. *)
Definition sorted (s : side) (l : OrderList.t) : Prop := Sorted (no_worse s) l.

(** The head, when present, is the best-priced order of the queue. *)
Definition head_is_best (s : side) (l : OrderList.t) : Prop :=
  forall h tl, l = h :: tl -> Forall (no_worse s h) tl.

(** The orders [OrderBook.add_order] hands to each queue: the Buy queue
    receives the orders whose type is ['Buy'], the Sell queue every other
    order, whatever its type. *)
Definition routed_to (s : side) (o : Order) : Prop :=
  match s with
  | Buy => order_type o = "Buy"%string
  | Sell => order_type o <> "Buy"%string
  end.

(** The states of a queue that receives the orders satisfying [admits]:
    it starts empty, such orders are linked in by [OrderList.add_order],
    the head is unlinked by [OrderList.pop_head], and [match_orders]
    rewrites the quantity of the head.  The queue of side [s] of a book is
    [reachable (routed_to s)]. *)
Inductive reachable (admits : Order -> Prop) : OrderList.t -> Prop :=
| reach_init : reachable admits OrderList.init
| reach_add l o :
    reachable admits l -> admits o ->
    reachable admits (OrderList.add_order l o)
| reach_pop l :
    reachable admits l -> reachable admits (snd (OrderList.pop_head l))
| reach_fill h q l :
    reachable admits (h :: l) -> reachable admits (set_quantity h q :: l).

(** [a] is the order [b], possibly with another remaining quantity. *)
Definition same_order (a b : Order) : Prop := exists q, a = set_quantity b q.

(** [l'] holds only orders of [l], possibly partly filled. *)
Definition orders_from (l' l : list Order) : Prop :=
  Forall (fun x => exists y, In y l /\ same_order x y) l'.

(** Both queues are non-empty and the Buy head's price is at least the
    Sell head's price. *)
Definition self_crossed (self : OrderBook.t) : Prop :=
  exists b buys s sells,
    OrderBook.buy_orders self = b :: buys
    /\ OrderBook.sell_orders self = s :: sells
    /\ price b >= price s.

(** Both sides are sorted and the book is not crossed: the state every
    call of [OrderBook.add_order] with a Buy or a Sell order leaves. *)
Definition book_ok (self : OrderBook.t) : Prop :=
  sorted Buy (OrderBook.buy_orders self)
  /\ sorted Sell (OrderBook.sell_orders self)
  /\ ~ self_crossed self.

(** Orders handed to one book, one call of [OrderBook.add_order] after the
    other: all the trades printed, and the book at the end. *)
Fixpoint submit_all (self : OrderBook.t) (orders : list Order)
    : list OrderBook.trade * OrderBook.t :=
  match orders with
  | [] => ([], self)
  | o :: orders' =>
      let '(ts, self') := OrderBook.add_order self o in
      let '(ts', self'') := submit_all self' orders' in
      (ts ++ ts', self'')
  end.

Definition total_quantity (l : list Order) : Z :=
  fold_right Z.add 0 (map quantity l).

Definition total_traded (ts : list OrderBook.trade) : Z :=
  fold_right Z.add 0 (map OrderBook.traded_quantity ts).

(** The orders of a submission sequence that [OrderBook.add_order] routes
    to the Buy queue, and those it routes to the Sell queue. *)
Definition routed_buy (orders : list Order) : list Order :=
  List.filter (fun o => String.eqb (order_type o) "Buy") orders.

Definition routed_sell (orders : list Order) : list Order :=
  List.filter (fun o => negb (String.eqb (order_type o) "Buy")) orders.

(** *** The matching loop in the words of the specification *)

(** "If either is absent, or [buy.price < sell.price], stop". *)
Definition spec_stop (self : OrderBook.t) : Prop :=
  OrderBook.buy_orders self = []
  \/ OrderBook.sell_orders self = []
  \/ exists b buys s sells,
       OrderBook.buy_orders self = b :: buys
       /\ OrderBook.sell_orders self = s :: sells
       /\ price b < price s.

(** "If an order's quantity reaches 0, pop it from its queue". *)
Definition spec_pop_if_filled (head : Order) (rest : list Order) : list Order :=
  if decide (quantity head = 0) then rest else head :: rest.

(** One round: [traded_quantity = min(buy.quantity, sell.quantity)], one
    trade record, both heads decremented, filled heads popped. *)
Inductive spec_round : OrderBook.t -> OrderBook.trade -> OrderBook.t -> Prop :=
| spec_round_intro b buys s sells tq :
    ~ price b < price s ->
    tq = Z.min (quantity b) (quantity s) ->
    spec_round
      (OrderBook.mk (b :: buys) (s :: sells))
      (OrderBook.mkTrade b s tq (price s))
      (OrderBook.mk (spec_pop_if_filled (set_quantity b (quantity b - tq)) buys)
                    (spec_pop_if_filled (set_quantity s (quantity s - tq)) sells)).

(** "Repeat until no cross remains". *)
Inductive spec_run_matching
  : OrderBook.t -> list OrderBook.trade -> OrderBook.t -> Prop :=
| spec_run_stop self :
    spec_stop self -> spec_run_matching self [] self
| spec_run_round self m self' ms self'' :
    spec_round self m self' ->
    spec_run_matching self' ms self'' ->
    spec_run_matching self (m :: ms) self''.

(** Every resting order has a positive remaining quantity. *)
Definition positive_quantities (self : OrderBook.t) : Prop :=
  Forall (fun o => 0 < quantity o) (OrderBook.buy_orders self)
  /\ Forall (fun o => 0 < quantity o) (OrderBook.sell_orders self).

(** *** The engine as a whole *)

(** What one iteration of [simulate_trading] can draw:
    [random.choice(['Buy', 'Sell'])], [random.randint(1, 1024)],
    [random.randint(1, 100)] and [random.randint(10, 500)]. *)
Definition random_draw (c : TradingEngine.call) : Prop :=
  (TradingEngine.c_type c = "Buy"%string \/ TradingEngine.c_type c = "Sell"%string)
  /\ 1 <= TradingEngine.c_ticker_index c <= 1024
  /\ 1 <= TradingEngine.c_quantity c <= 100
  /\ 10 <= TradingEngine.c_price c <= 500.

(** The orders resting in a book, Buy queue first. *)
Definition book_orders (self : OrderBook.t) : list Order :=
  OrderBook.buy_orders self ++ OrderBook.sell_orders self.

(** The ids of all orders resting in the engine, book after book. *)
Definition resting_ids (e : TradingEngine.t) : list Z :=
  flat_map (fun b => map order_id (book_orders b)) (TradingEngine.order_books e).

(** Every book is sorted on both sides and not crossed. *)
Definition engine_ok (e : TradingEngine.t) : Prop :=
  Forall book_ok (TradingEngine.order_books e).

(** Every resting order of every book has a positive quantity. *)
Definition engine_positive (e : TradingEngine.t) : Prop :=
  Forall positive_quantities (TradingEngine.order_books e).

(** The counter is not negative; ids in use are positive, at most the
    counter, and pairwise distinct. *)
Definition ids_fresh (e : TradingEngine.t) : Prop :=
  0 <= TradingEngine.order_id_counter e
  /\ Forall (fun i => 0 < i <= TradingEngine.order_id_counter e) (resting_ids e)
  /\ NoDup (resting_ids e).

(** Every order resting in the book at position [k] carries the ticker
    of instrument [k + 1]. *)
Definition tickers_match (e : TradingEngine.t) : Prop :=
  forall k book,
    TradingEngine.order_books e !! k = Some book ->
    Forall (fun o => ticker o = ("STOCK" ++ str (Z.of_nat k + 1))%string)
           (book_orders book).

(** The queue [l'] is what the matching loop can leave of the queue [l]:
    a suffix of [l], whose first order may have a smaller quantity. *)
Definition consumed_from_head (l' l : OrderList.t) : Prop :=
  exists n,
    l' = drop n l
    \/ exists h q rest, drop n l = h :: rest /\ l' = set_quantity h q :: rest.

(** ** The compare-and-swap loops leave at the first pass *)

Lemma compare_and_swap_head_same (self new : OrderList.t) :
  OrderList._compare_and_swap_head self self new = (true, new).
Proof.
  unfold OrderList._compare_and_swap_head.
  rewrite bool_decide_eq_true_2; reflexivity.
Qed.

Lemma compare_and_swap_next_same pre (rest : OrderList.t) new :
  OrderList._compare_and_swap_next pre rest new rest = (true, pre ++ new :: rest).
Proof.
  unfold OrderList._compare_and_swap_next.
  rewrite bool_decide_eq_true_2; reflexivity.
Qed.

Lemma add_order_attempt_done self o :
  fst (OrderList.add_order_attempt self o) = true.
Proof.
  unfold OrderList.add_order_attempt.
  destruct self as [|h tl].
  - rewrite compare_and_swap_head_same; reflexivity.
  - destruct (OrderList.goes_first o h).
    + rewrite compare_and_swap_head_same; reflexivity.
    + destruct (OrderList.walk o h tl) as [pre post].
      rewrite compare_and_swap_next_same; reflexivity.
Qed.

Lemma add_order_loop_once fuel self o :
  OrderList.add_order_loop (S fuel) self o = Some (OrderList.add_order self o).
Proof.
  cbn [OrderList.add_order_loop]. unfold OrderList.add_order.
  pose proof (add_order_attempt_done self o) as Hd.
  destruct (OrderList.add_order_attempt self o) as [d self']; cbn in *.
  rewrite Hd; reflexivity.
Qed.

Lemma pop_head_loop_once fuel self :
  OrderList.pop_head_loop (S fuel) self = Some (OrderList.pop_head self).
Proof.
  cbn [OrderList.pop_head_loop]. unfold OrderList.pop_head_attempt.
  destruct self as [|h tl]; [reflexivity|].
  rewrite compare_and_swap_head_same; reflexivity.
Qed.

(** ** Where [OrderList.add_order] links the new order *)

Lemma walk_spec o c rest pre post :
  OrderList.walk o c rest = (pre, post) ->
  exists pre',
    pre = c :: pre' /\ c :: rest = pre ++ post
    /\ Forall (fun x => OrderList.walks_past o x = true) pre'
    /\ match post with
       | [] => True
       | x :: _ => OrderList.walks_past o x = false
       end.
Proof.
  revert c pre post.
  induction rest as [|n rest IH]; intros c pre post Hw; cbn in Hw.
  - inversion Hw; subst. exists []. repeat split; constructor.
  - destruct (OrderList.walks_past o n) eqn:Hn.
    + destruct (OrderList.walk o n rest) as [pre0 post0] eqn:Hw0.
      inversion Hw; subst; clear Hw.
      destruct (IH _ _ _ Hw0) as (pre' & -> & Happ & Hall & Hpost).
      exists (n :: pre'). cbn. rewrite Happ.
      repeat split; [constructor; assumption | assumption].
    + inversion Hw; subst. exists []. repeat split; [constructor | assumption].
Qed.

(** The position taken by the new order, in terms of the two tests of
    the source. *)
Lemma add_order_split (l : OrderList.t) o :
  exists l1 l2,
    l = l1 ++ l2 /\ OrderList.add_order l o = l1 ++ o :: l2
    /\ match l1 with
       | [] => match l2 with
               | [] => True
               | h :: _ => OrderList.goes_first o h = true
               end
       | h :: l1' =>
           OrderList.goes_first o h = false
           /\ Forall (fun x => OrderList.walks_past o x = true) l1'
           /\ match l2 with
              | [] => True
              | x :: _ => OrderList.walks_past o x = false
              end
       end.
Proof.
  unfold OrderList.add_order, OrderList.add_order_attempt.
  destruct l as [|h tl].
  - exists [], []. rewrite compare_and_swap_head_same. tauto.
  - destruct (OrderList.goes_first o h) eqn:Hg.
    + exists [], (h :: tl). rewrite compare_and_swap_head_same. tauto.
    + destruct (OrderList.walk o h tl) as [pre post] eqn:Hw.
      rewrite compare_and_swap_next_same.
      destruct (walk_spec _ _ _ _ _ Hw) as (pre' & -> & Happ & Hall & Hpost).
      exists (h :: pre'), post. tauto.
Qed.

(** ** The two tests of [OrderList.add_order], read on one side *)

#[local] Instance no_worse_trans s : Transitive (no_worse s).
Proof. intros a b c; destruct s; unfold no_worse; lia. Qed.

Lemma no_worse_total s a b : no_worse s a b \/ no_worse s b a.
Proof. destruct s; unfold no_worse; lia. Qed.

Lemma goes_first_side s o h :
  order_type o = side_name s ->
  OrderList.goes_first o h = true <-> ~ no_worse s h o.
Proof.
  intros Ht. unfold OrderList.goes_first. rewrite Ht.
  rewrite Z.gtb_ltb.
  destruct s; cbn;
    destruct (Z.ltb_spec (price h) (price o));
    destruct (Z.ltb_spec (price o) (price h));
    cbn; split; intros; try lia; try discriminate; reflexivity.
Qed.

Lemma walks_past_side s o n :
  order_type o = side_name s ->
  OrderList.walks_past o n = true <-> no_worse s n o.
Proof.
  intros Ht. unfold OrderList.walks_past. rewrite Ht.
  rewrite Z.geb_leb.
  destruct s; cbn;
    destruct (Z.leb_spec (price o) (price n));
    destruct (Z.leb_spec (price n) (price o));
    cbn; split; intros; try lia; try discriminate; reflexivity.
Qed.

(** On a sorted queue the new order lands behind every order that is no
    worse than it and in front of every order that is worse. *)
Lemma add_order_position s (l : OrderList.t) o :
  order_type o = side_name s -> sorted s l ->
  exists l1 l2,
    l = l1 ++ l2 /\ OrderList.add_order l o = l1 ++ o :: l2
    /\ Forall (fun x => no_worse s x o) l1
    /\ Forall (fun y => ~ no_worse s y o) l2.
Proof.
  intros Ht Hs.
  destruct (add_order_split l o) as (l1 & l2 & -> & Hadd & Hpos).
  exists l1, l2. split; [reflexivity|]. split; [assumption|].
  apply Sorted_StronglySorted in Hs; [|apply no_worse_trans].
  apply StronglySorted_app in Hs as (Hcross & Hs1 & Hs2).
  assert (Htail : match l2 with
                  | [] => True
                  | y :: _ => ~ no_worse s y o
                  end -> Forall (fun y => ~ no_worse s y o) l2).
  { destruct l2 as [|y l2']; intros Hy; constructor; [assumption|].
    apply StronglySorted_inv in Hs2 as [_ Hall].
    eapply Forall_impl; [exact Hall|].
    intros z Hyz Hzo. apply Hy. etransitivity; eassumption. }
  destruct l1 as [|h l1'].
  - split; [constructor|]. apply Htail.
    destruct l2 as [|y l2']; [exact I|].
    apply (goes_first_side s); assumption.
  - destruct Hpos as (Hg & Hall & Hpost). split.
    + constructor.
      * destruct (no_worse_total s h o) as [H|H]; [assumption|].
        destruct (no_worse_total s o h) as [H'|H']; [|assumption].
        assert (Hn : OrderList.goes_first o h <> true) by (rewrite Hg; discriminate).
        rewrite (goes_first_side s) in Hn by assumption.
        destruct (decide (price h = price o)) as [He|He].
        -- destruct s; unfold no_worse in *; lia.
        -- exfalso. apply Hn. destruct s; unfold no_worse in *; lia.
      * eapply Forall_impl; [exact Hall|].
        intros x Hx. apply (walks_past_side s); assumption.
    + apply Htail. destruct l2 as [|y l2']; [exact I|].
      intros Hy. apply (walks_past_side s o y Ht) in Hy. congruence.
Qed.

(** ** The sort invariant *)

Lemma add_order_sorted s (l : OrderList.t) o :
  order_type o = side_name s -> sorted s l -> sorted s (OrderList.add_order l o).
Proof.
  intros Ht Hs.
  destruct (add_order_position s l o Ht Hs) as (l1 & l2 & -> & -> & H1 & H2).
  apply Sorted_StronglySorted in Hs; [|apply no_worse_trans].
  apply StronglySorted_app in Hs as (Hcross & Hs1 & Hs2).
  apply StronglySorted_Sorted, StronglySorted_app.
  rewrite Forall_forall in H1, H2.
  split; [|split].
  - intros x1 x2 Hx1 Hx2. apply elem_of_cons in Hx2 as [->|Hx2].
    + apply H1; assumption.
    + apply Hcross; assumption.
  - assumption.
  - constructor; [assumption|].
    apply Forall_forall. intros y Hy.
    destruct (no_worse_total s o y) as [H|H]; [assumption|].
    exfalso. exact (H2 y Hy H).
Qed.

Lemma pop_head_sorted s (l : OrderList.t) :
  sorted s l -> sorted s (snd (OrderList.pop_head l)).
Proof.
  intros Hs. destruct l as [|h tl]; cbn; [constructor|].
  apply Sorted_inv in Hs as [Hs _]. exact Hs.
Qed.

Lemma set_quantity_sorted s h q (l : OrderList.t) :
  sorted s (h :: l) -> sorted s (set_quantity h q :: l).
Proof.
  intros Hs. apply Sorted_inv in Hs as [Hs Hh].
  constructor; [assumption|].
  destruct Hh; constructor. destruct s; assumption.
Qed.

(** A queue that only receives orders typed as its side stays sorted. *)
Lemma reachable_sorted s (admits : Order -> Prop) l :
  (forall o, admits o -> order_type o = side_name s) ->
  reachable admits l -> sorted s l.
Proof.
  intros Hty. induction 1.
  - constructor.
  - apply add_order_sorted; [apply Hty|]; assumption.
  - apply pop_head_sorted; assumption.
  - apply set_quantity_sorted; assumption.
Qed.

Lemma sorted_head_is_best s l : sorted s l -> head_is_best s l.
Proof.
  intros Hs h tl ->.
  apply Sorted_StronglySorted in Hs; [|apply no_worse_trans].
  apply StronglySorted_inv in Hs as [_ Hall]. exact Hall.
Qed.

(** C1 (the code departs from it).  [OrderList.add_order] is documented
    to add the order "in sorted order", but its two price tests name the
    types ['Buy'] and ['Sell'] only, while [OrderBook.add_order] sends
    every order that is not a ['Buy'] to the Sell queue.  After Sell(5 at
    100), Sell(5 at 200) and an order of type ['sell'] (5 at 50) on
    instrument 1, every call has returned, nothing was printed, and the
    Sell queue of the book, a state reached by [OrderList.add_order]
    alone, has prices 100, 50, 200 from head to tail: it is not
    non-decreasing and its head is not the best-priced order. *)
Theorem C1_sell_queue_unsorted :
  let r := TradingEngine.run TradingEngine.init
             [TradingEngine.mkCall "Sell" 1 5 100;
              TradingEngine.mkCall "Sell" 1 5 200;
              TradingEngine.mkCall "sell" 1 5 50] in
  exists sells,
    TradingEngine.out r = Returned PyNone
    /\ TradingEngine.stdout r = []
    /\ TradingEngine.order_books (TradingEngine.engine r) !! 0%nat
       = Some (OrderBook.mk [] sells)
    /\ reachable (routed_to Sell) sells
    /\ map price sells = [100; 50; 200]
    /\ ~ Sorted (fun a b => price a <= price b) sells
    /\ ~ (forall h tl, sells = h :: tl -> Forall (fun o => price h <= price o) tl).
Proof.
  cbv zeta.
  exists (OrderList.add_order
            (OrderList.add_order
               (OrderList.add_order OrderList.init (mkOrder "Sell" "STOCK1" 5 100 1))
               (mkOrder "Sell" "STOCK1" 5 200 2))
            (mkOrder "sell" "STOCK1" 5 50 3)).
  split; [vm_compute; reflexivity|].
  split; [vm_compute; reflexivity|].
  split; [vm_compute; reflexivity|].
  split.
  { repeat (apply reach_add; [|cbn; discriminate]). apply reach_init. }
  split; [vm_compute; reflexivity|].
  split.
  - intros Hs. vm_compute in Hs.
    apply Sorted_inv in Hs as [_ Hh]. apply HdRel_inv in Hh.
    apply Hh. reflexivity.
  - intros Hbest.
    specialize (Hbest (mkOrder "Sell" "STOCK1" 5 100 1)
                  [mkOrder "sell" "STOCK1" 5 50 3; mkOrder "Sell" "STOCK1" 5 200 2]
                  ltac:(vm_compute; reflexivity)).
    apply Forall_cons in Hbest as [Hh _]. cbn in Hh. lia.
Qed.

(** ** The matching loop *)

(** The loop equation of [match_orders]. *)
Lemma match_orders_unfold self :
  OrderBook.match_orders self =
  match OrderBook.match_iter self with
  | None => ([], self)
  | Some (m, self') =>
      (m :: fst (OrderBook.match_orders self'), snd (OrderBook.match_orders self'))
  end.
Proof.
  apply (OrderBook.match_orders_elim
           (fun self r =>
              r = match OrderBook.match_iter self with
                  | None => ([], self)
                  | Some (m, self') =>
                      (m :: fst (OrderBook.match_orders self'),
                       snd (OrderBook.match_orders self'))
                  end)).
  - intros self0 m self' e _ _. rewrite e. reflexivity.
  - intros self0 e _. rewrite e. reflexivity.
Qed.

(** What one iteration does, spelled out. *)
Lemma match_iter_Some self m self' :
  OrderBook.match_iter self = Some (m, self') ->
  exists b buys s sells,
    OrderBook.buy_orders self = b :: buys
    /\ OrderBook.sell_orders self = s :: sells
    /\ price s <= price b
    /\ m = OrderBook.mkTrade b s (Z.min (quantity b) (quantity s)) (price s)
    /\ OrderBook.buy_orders self' =
         (if quantity b - Z.min (quantity b) (quantity s) =? 0 then buys
          else set_quantity b (quantity b - Z.min (quantity b) (quantity s)) :: buys)
    /\ OrderBook.sell_orders self' =
         (if quantity s - Z.min (quantity b) (quantity s) =? 0 then sells
          else set_quantity s (quantity s - Z.min (quantity b) (quantity s)) :: sells).
Proof.
  unfold OrderBook.match_iter.
  destruct self as [[|b buys] [|s sells]]; cbn; try discriminate.
  rewrite Z.geb_leb. destruct (Z.leb_spec (price s) (price b)); [|discriminate].
  intros H'; inversion H'; subst; clear H'. cbn.
  exists b, buys, s, sells.
  repeat split; try assumption;
    match goal with |- context [if ?c then _ else _] => destruct c end;
    reflexivity.
Qed.

Lemma match_iter_None self :
  OrderBook.match_iter self = None <-> OrderBook.crosses self = false.
Proof.
  unfold OrderBook.match_iter, OrderBook.crosses.
  destruct self as [[|b buys] [|s sells]]; cbn; try tauto.
  destruct (price b >=? price s); split; intros; congruence.
Qed.

(** Every iteration unlinks the buy head or the sell head. *)
Lemma match_iter_pops self m self' :
  OrderBook.match_iter self = Some (m, self') ->
  (quantity (OrderBook.buy_order m) = OrderBook.traded_quantity m
   /\ OrderBook.buy_orders self = OrderBook.buy_order m :: OrderBook.buy_orders self')
  \/ (quantity (OrderBook.sell_order m) = OrderBook.traded_quantity m
      /\ OrderBook.sell_orders self = OrderBook.sell_order m :: OrderBook.sell_orders self').
Proof.
  intros H.
  destruct (match_iter_Some _ _ _ H)
    as (b & buys & s & sells & Hb & Hs & Hp & -> & Hb' & Hs').
  rewrite Hb, Hs, Hb', Hs'. cbn.
  destruct (Z.min_spec (quantity b) (quantity s)) as [[_ E]|[_ E]];
    rewrite E, Z.sub_diag; cbn; [left|right]; split; reflexivity.
Qed.

Lemma match_iter_size self m self' :
  OrderBook.match_iter self = Some (m, self') ->
  (OrderBook.size self' < OrderBook.size self)%nat.
Proof.
  intros H.
  destruct (match_iter_Some _ _ _ H)
    as (b & buys & s & sells & Hb & Hs & Hp & -> & Hb' & Hs').
  unfold OrderBook.size. rewrite Hb, Hs, Hb', Hs'.
  destruct (Z.min_spec (quantity b) (quantity s)) as [[_ E]|[_ E]];
    rewrite E, Z.sub_diag; cbn;
    repeat match goal with |- context [if ?c then _ else _] => destruct c end;
    cbn; lia.
Qed.

(** Induction along the iterations of [match_orders]. *)
Lemma match_orders_induction (P : OrderBook.t -> list OrderBook.trade -> OrderBook.t -> Prop) :
  (forall self, OrderBook.match_iter self = None -> P self [] self) ->
  (forall self m self' ms self'',
      OrderBook.match_iter self = Some (m, self') ->
      OrderBook.match_orders self' = (ms, self'') ->
      P self' ms self'' -> P self (m :: ms) self'') ->
  forall self,
    P self (fst (OrderBook.match_orders self)) (snd (OrderBook.match_orders self)).
Proof.
  intros Hstop Hstep self.
  remember (OrderBook.size self) as n eqn:Hn.
  revert self Hn.
  induction n as [n IH] using lt_wf_ind. intros self ->.
  rewrite match_orders_unfold.
  destruct (OrderBook.match_iter self) as [[m self']|] eqn:Hi; cbn.
  - eapply Hstep; [exact Hi|apply surjective_pairing|].
    eapply IH; [|reflexivity]. eapply match_iter_size; exact Hi.
  - apply Hstop; exact Hi.
Qed.

(** The loop of the source, run with a bound on its iterations, ends
    within [size self] iterations with the result of [match_orders]. *)
Lemma match_loop_terminates self fuel :
  (OrderBook.size self < fuel)%nat ->
  OrderBook.match_loop fuel self = Some (OrderBook.match_orders self).
Proof.
  rewrite (surjective_pairing (OrderBook.match_orders self)).
  revert fuel.
  apply (match_orders_induction
           (fun self ms self'' =>
              forall fuel, (OrderBook.size self < fuel)%nat ->
                           OrderBook.match_loop fuel self = Some (ms, self''))).
  - intros self0 Hi [|fuel] Hf; [lia|]. cbn. rewrite Hi. reflexivity.
  - intros self0 m self' ms self'' Hi _ IH [|fuel] Hf; [lia|]. cbn. rewrite Hi.
    rewrite IH; [reflexivity|].
    pose proof (match_iter_size _ _ _ Hi). lia.
Qed.

(** When the loop ends, no cross remains. *)
Lemma match_orders_no_cross self :
  OrderBook.crosses (snd (OrderBook.match_orders self)) = false.
Proof.
  apply (match_orders_induction (fun _ _ self'' => OrderBook.crosses self'' = false)).
  - intros self0 Hi. apply match_iter_None; exact Hi.
  - intros; assumption.
Qed.

Lemma crosses_self_crossed self :
  OrderBook.crosses self = false <-> ~ self_crossed self.
Proof.
  unfold OrderBook.crosses, self_crossed.
  destruct self as [[|b buys] [|s sells]]; cbn.
  1-3: split; [intros _ (b' & buys' & s' & sells' & Hb & Hs & _); discriminate
               | reflexivity].
  rewrite Z.geb_leb. destruct (Z.leb_spec (price s) (price b)); split.
  - discriminate.
  - intros Hn. exfalso. apply Hn. exists b, buys, s, sells. repeat split. lia.
  - intros _ (b' & buys' & s' & sells' & Hb & Hs & Hp).
    inversion Hb; inversion Hs; subst. lia.
  - reflexivity.
Qed.

Lemma match_iter_positive self m self' :
  positive_quantities self ->
  OrderBook.match_iter self = Some (m, self') ->
  0 < OrderBook.traded_quantity m /\ positive_quantities self'.
Proof.
  intros [Hpb Hps] H.
  destruct (match_iter_Some _ _ _ H)
    as (b & buys & s & sells & Hb & Hs & Hp & -> & Hb' & Hs').
  unfold positive_quantities. rewrite Hb in Hpb. rewrite Hs in Hps.
  rewrite Hb', Hs'. cbn.
  apply Forall_cons in Hpb as [Hqb Hpb]. apply Forall_cons in Hps as [Hqs Hps].
  split; [lia|]. split.
  - destruct (Z.eqb_spec (quantity b - Z.min (quantity b) (quantity s)) 0);
      [assumption|]. constructor; [cbn; lia|assumption].
  - destruct (Z.eqb_spec (quantity s - Z.min (quantity b) (quantity s)) 0);
      [assumption|]. constructor; [cbn; lia|assumption].
Qed.

(** C9. On a book whose resting orders all have a positive remaining
    quantity, an iteration of the loop of [match_orders] that does not
    leave the loop fills the Buy head or the Sell head completely and
    unlinks it (and keeps the quantities positive), so the loop ends: run
    for more than [size self] iterations it returns, with the result of
    [match_orders]. *)
Theorem C9_match_orders_terminates self :
  positive_quantities self ->
  (forall m self',
      OrderBook.match_iter self = Some (m, self') ->
      0 < OrderBook.traded_quantity m
      /\ ((quantity (OrderBook.buy_order m) = OrderBook.traded_quantity m
           /\ OrderBook.buy_orders self
              = OrderBook.buy_order m :: OrderBook.buy_orders self')
          \/ (quantity (OrderBook.sell_order m) = OrderBook.traded_quantity m
              /\ OrderBook.sell_orders self
                 = OrderBook.sell_order m :: OrderBook.sell_orders self'))
      /\ (OrderBook.size self' < OrderBook.size self)%nat
      /\ positive_quantities self')
  /\ (forall fuel, (OrderBook.size self < fuel)%nat ->
        OrderBook.match_loop fuel self = Some (OrderBook.match_orders self))
  /\ (length (fst (OrderBook.match_orders self)) <= OrderBook.size self)%nat.
Proof.
  intros Hpos. split; [|split].
  - intros m self' Hi.
    destruct (match_iter_positive _ _ _ Hpos Hi) as [Htq Hpos'].
    repeat split; try assumption.
    + apply match_iter_pops; exact Hi.
    + eapply match_iter_size; exact Hi.
    + apply Hpos'.
    + apply Hpos'.
  - intros fuel Hf. apply match_loop_terminates; exact Hf.
  - apply (match_orders_induction
             (fun self ms _ => (length ms <= OrderBook.size self)%nat)).
    + intros; cbn; lia.
    + intros self0 m self' ms self'' Hi _ IH. cbn.
      pose proof (match_iter_size _ _ _ Hi). lia.
Qed.

(** ** The engine *)

Lemma py_index_Some {A} (l : list A) i k :
  py_index l i = Some k ->
  (k < length l)%nat
  /\ ((0 <= i /\ Z.of_nat k = i) \/ (i < 0 /\ Z.of_nat k = i + Z.of_nat (length l))).
Proof.
  unfold py_index.
  destruct (Z.leb_spec 0 i); destruct (Z.ltb_spec i (Z.of_nat (length l)));
    destruct (Z.leb_spec (- Z.of_nat (length l)) i); destruct (Z.ltb_spec i 0);
    cbn; intros H'; inversion H'; subst; lia.
Qed.

Lemma py_index_None {A} (l : list A) i :
  py_index l i = None <-> i < - Z.of_nat (length l) \/ Z.of_nat (length l) <= i.
Proof.
  unfold py_index.
  destruct (Z.leb_spec 0 i); destruct (Z.ltb_spec i (Z.of_nat (length l)));
    destruct (Z.leb_spec (- Z.of_nat (length l)) i); destruct (Z.ltb_spec i 0);
    cbn; split; intros H'; try discriminate; try reflexivity; lia.
Qed.

(** A call that raises: only the counter has moved. *)
Lemma add_order_raises self ot idx q p :
  py_index (TradingEngine.order_books self) (idx - 1) = None ->
  TradingEngine.add_order self ot idx q p
  = TradingEngine.mkResult
      (TradingEngine.mk (TradingEngine.order_books self)
                        (TradingEngine.order_id_counter self + 1))
      [] (Raised IndexError).
Proof.
  intros H. unfold TradingEngine.add_order. rewrite H. reflexivity.
Qed.

(** A call that returns: the book selected by Python's indexing received
    the new order. *)
Lemma add_order_returns self ot idx q p k :
  py_index (TradingEngine.order_books self) (idx - 1) = Some k ->
  exists book,
    TradingEngine.order_books self !! k = Some book
    /\ TradingEngine.add_order self ot idx q p
       = TradingEngine.mkResult
           (TradingEngine.mk
              (<[k := snd (OrderBook.add_order book
                             (TradingEngine.new_order self ot idx q p))]>
                 (TradingEngine.order_books self))
              (TradingEngine.order_id_counter self + 1))
           (fst (OrderBook.add_order book (TradingEngine.new_order self ot idx q p)))
           (Returned PyNone).
Proof.
  intros H. unfold TradingEngine.add_order. rewrite H.
  apply py_index_Some in H as [Hk _].
  destruct (lookup_lt_is_Some_2 _ _ Hk) as [book Hbook].
  exists book. split; [exact Hbook|]. rewrite Hbook.
  destruct (OrderBook.add_order book _) as [trades book']. reflexivity.
Qed.

Lemma add_order_outcome self ot idx q p :
  (exists k, py_index (TradingEngine.order_books self) (idx - 1) = Some k
             /\ TradingEngine.out (TradingEngine.add_order self ot idx q p)
                = Returned PyNone)
  \/ (py_index (TradingEngine.order_books self) (idx - 1) = None
      /\ TradingEngine.out (TradingEngine.add_order self ot idx q p)
         = Raised IndexError).
Proof.
  destruct (py_index (TradingEngine.order_books self) (idx - 1)) as [k|] eqn:Hk.
  - left. exists k. split; [reflexivity|].
    destruct (add_order_returns self ot idx q p k Hk) as (book & _ & ->).
    reflexivity.
  - right. split; [reflexivity|]. rewrite add_order_raises by exact Hk.
    reflexivity.
Qed.

(** C4. When [OrderBook.add_order] returns, the book is not crossed: it is
    not the case that both queues are non-empty with the Buy head's price
    at least the Sell head's price.  The same holds, after
    [TradingEngine.add_order] returns, for the book the call selected. *)
Theorem C4_no_self_cross_persists :
  (forall self o, ~ self_crossed (snd (OrderBook.add_order self o)))
  /\ (forall self ot idx q p v,
        TradingEngine.out (TradingEngine.add_order self ot idx q p) = Returned v ->
        exists k book,
          py_index (TradingEngine.order_books self) (idx - 1) = Some k
          /\ TradingEngine.order_books
               (TradingEngine.engine (TradingEngine.add_order self ot idx q p)) !! k
             = Some book
          /\ ~ self_crossed book).
Proof.
  split.
  - intros self o. apply crosses_self_crossed.
    unfold OrderBook.add_order. apply match_orders_no_cross.
  - intros self ot idx q p v Hout.
    destruct (add_order_outcome self ot idx q p) as [(k & Hk & _)|[_ Hr]];
      [|congruence].
    destruct (add_order_returns self ot idx q p k Hk) as (book & Hbook & ->).
    exists k, (snd (OrderBook.add_order book (TradingEngine.new_order self ot idx q p))).
    split; [exact Hk|]. split.
    + cbn. apply list_lookup_insert_eq. apply py_index_Some in Hk. tauto.
    + apply crosses_self_crossed. unfold OrderBook.add_order.
      apply match_orders_no_cross.
Qed.

(** ** The loop of the source against the loop of the specification *)

Lemma pop_if_filled_eqb (h : Order) (rest : list Order) q :
  (if q =? 0 then rest else set_quantity h q :: rest)
  = spec_pop_if_filled (set_quantity h q) rest.
Proof.
  unfold spec_pop_if_filled. cbn.
  destruct (Z.eqb_spec q 0); destruct (decide (q = 0)); congruence.
Qed.

Lemma match_iter_spec_round self m self' :
  OrderBook.match_iter self = Some (m, self') <-> spec_round self m self'.
Proof.
  split.
  - intros H.
    destruct (match_iter_Some _ _ _ H)
      as (b & buys & s & sells & Hb & Hs & Hp & -> & Hb' & Hs').
    destruct self as [bl sl], self' as [bl' sl']; cbn in *; subst.
    rewrite !pop_if_filled_eqb.
    constructor; [lia|reflexivity].
  - intros H. destruct H as [b buys s sells tq Hp ->].
    unfold OrderBook.match_iter; cbn.
    rewrite Z.geb_leb. destruct (Z.leb_spec (price s) (price b)); [|lia].
    rewrite !pop_if_filled_eqb. reflexivity.
Qed.

Lemma match_iter_spec_stop self :
  OrderBook.match_iter self = None <-> spec_stop self.
Proof.
  unfold OrderBook.match_iter, spec_stop.
  destruct self as [[|b buys] [|s sells]]; cbn; try tauto.
  rewrite Z.geb_leb. destruct (Z.leb_spec (price s) (price b)); split.
  - discriminate.
  - intros [H'|[H'|(b' & buys' & s' & sells' & Hb & Hs & Hp)]];
      try discriminate. inversion Hb; inversion Hs; subst. lia.
  - intros _. right; right. exists b, buys, s, sells. repeat split. lia.
  - reflexivity.
Qed.

(** C6. [match_orders] is the loop of the specification: it stops when a
    head is absent or the Buy head's price is below the Sell head's price;
    otherwise it trades [min] of the two head quantities, records one
    trade, decrements both heads, pops each head whose quantity reached 0,
    and repeats.  The trades and final book of [match_orders] are exactly
    those of that loop. *)
Theorem C6_matching_steps self ts self' :
  OrderBook.match_orders self = (ts, self') <-> spec_run_matching self ts self'.
Proof.
  split.
  - intros H.
    pose proof
      (match_orders_induction spec_run_matching
         (fun self0 Hi => spec_run_stop self0 (proj1 (match_iter_spec_stop self0) Hi))
         (fun self0 m self1 ms self2 Hi _ IH =>
            spec_run_round self0 m self1 ms self2
              (proj1 (match_iter_spec_round self0 m self1) Hi) IH)
         self) as Hrun.
    rewrite H in Hrun. exact Hrun.
  - induction 1 as [self0 Hstop|self0 m self1 ms self2 Hround _ IH];
      rewrite match_orders_unfold.
    + apply match_iter_spec_stop in Hstop. rewrite Hstop. reflexivity.
    + apply match_iter_spec_round in Hround. rewrite Hround, IH. reflexivity.
Qed.

(** ** Conservation of quantity *)

Lemma total_quantity_app l1 l2 :
  total_quantity (l1 ++ l2) = total_quantity l1 + total_quantity l2.
Proof.
  unfold total_quantity. induction l1 as [|x l1 IH]; cbn; [reflexivity|].
  rewrite IH. lia.
Qed.

Lemma total_traded_app ts1 ts2 :
  total_traded (ts1 ++ ts2) = total_traded ts1 + total_traded ts2.
Proof.
  unfold total_traded. induction ts1 as [|x ts1 IH]; cbn; [reflexivity|].
  rewrite IH. lia.
Qed.

Lemma add_order_total (l : OrderList.t) o :
  total_quantity (OrderList.add_order l o) = total_quantity l + quantity o.
Proof.
  destruct (add_order_split l o) as (l1 & l2 & -> & -> & _).
  rewrite !total_quantity_app. unfold total_quantity; cbn. lia.
Qed.

Lemma match_iter_conserves self m self' :
  OrderBook.match_iter self = Some (m, self') ->
  total_quantity (OrderBook.buy_orders self') + OrderBook.traded_quantity m
  = total_quantity (OrderBook.buy_orders self)
  /\ total_quantity (OrderBook.sell_orders self') + OrderBook.traded_quantity m
     = total_quantity (OrderBook.sell_orders self).
Proof.
  intros H.
  destruct (match_iter_Some _ _ _ H)
    as (b & buys & s & sells & Hb & Hs & Hp & -> & Hb' & Hs').
  rewrite Hb, Hs, Hb', Hs'. cbn.
  split;
    match goal with |- context [?q =? 0] => destruct (Z.eqb_spec q 0) end;
    unfold total_quantity; cbn; lia.
Qed.

Lemma match_orders_conserves self :
  total_quantity (OrderBook.buy_orders (snd (OrderBook.match_orders self)))
  + total_traded (fst (OrderBook.match_orders self))
  = total_quantity (OrderBook.buy_orders self)
  /\ total_quantity (OrderBook.sell_orders (snd (OrderBook.match_orders self)))
     + total_traded (fst (OrderBook.match_orders self))
     = total_quantity (OrderBook.sell_orders self).
Proof.
  apply (match_orders_induction
           (fun self ms self'' =>
              total_quantity (OrderBook.buy_orders self'') + total_traded ms
              = total_quantity (OrderBook.buy_orders self)
              /\ total_quantity (OrderBook.sell_orders self'') + total_traded ms
                 = total_quantity (OrderBook.sell_orders self))).
  - intros self0 _. unfold total_traded; cbn. lia.
  - intros self0 m self' ms self'' Hi _ [IHb IHs].
    destruct (match_iter_conserves _ _ _ Hi) as [Hb Hs].
    unfold total_traded in *; cbn. lia.
Qed.

Lemma book_add_order_conserves self o :
  total_quantity (OrderBook.buy_orders (snd (OrderBook.add_order self o)))
  + total_traded (fst (OrderBook.add_order self o))
  = total_quantity (OrderBook.buy_orders self) + total_quantity (routed_buy [o])
  /\ total_quantity (OrderBook.sell_orders (snd (OrderBook.add_order self o)))
     + total_traded (fst (OrderBook.add_order self o))
     = total_quantity (OrderBook.sell_orders self) + total_quantity (routed_sell [o]).
Proof.
  unfold OrderBook.add_order, routed_buy, routed_sell. cbn [List.filter].
  destruct (String.eqb (order_type o) "Buy");
    match goal with |- context [OrderBook.match_orders ?b] =>
      destruct (match_orders_conserves b) as [Hb Hs] end;
    rewrite Hb, Hs; cbn [OrderBook.buy_orders OrderBook.sell_orders negb];
    rewrite ?add_order_total; unfold total_quantity; cbn; lia.
Qed.

Lemma submit_all_conserves orders : forall self,
  total_quantity (OrderBook.buy_orders (snd (submit_all self orders)))
  + total_traded (fst (submit_all self orders))
  = total_quantity (OrderBook.buy_orders self) + total_quantity (routed_buy orders)
  /\ total_quantity (OrderBook.sell_orders (snd (submit_all self orders)))
     + total_traded (fst (submit_all self orders))
     = total_quantity (OrderBook.sell_orders self) + total_quantity (routed_sell orders).
Proof.
  induction orders as [|o orders IH]; intros self; cbn [submit_all].
  - unfold total_traded, total_quantity; cbn. lia.
  - pose proof (book_add_order_conserves self o) as [Hb Hs].
    destruct (OrderBook.add_order self o) as [ts self'].
    specialize (IH self') as [IHb IHs].
    destruct (submit_all self' orders) as [ts' self''].
    cbn [fst snd] in *. rewrite total_traded_app.
    change (o :: orders) with ([o] ++ orders).
    unfold routed_buy, routed_sell in *.
    rewrite !List.filter_app, !total_quantity_app. lia.
Qed.

Lemma routed_total orders :
  total_quantity (routed_buy orders) + total_quantity (routed_sell orders)
  = total_quantity orders.
Proof.
  unfold routed_buy, routed_sell, total_quantity.
  induction orders as [|o orders IH]; cbn; [reflexivity|].
  destruct (String.eqb (order_type o) "Buy"); cbn; lia.
Qed.

(** C5 (as amended). For every sequence of orders submitted to one book,
    starting from the empty book: on each side, the remaining quantity
    resting in the queue plus the quantity reported in the trades equals
    the quantity submitted to that side; hence the remaining quantity of
    both queues plus twice the traded quantity equals the total quantity
    submitted (each trade takes its quantity from a buy order and from a
    sell order). *)
Theorem C5_conservation orders :
  let r := submit_all OrderBook.init orders in
  total_quantity (OrderBook.buy_orders (snd r)) + total_traded (fst r)
  = total_quantity (routed_buy orders)
  /\ total_quantity (OrderBook.sell_orders (snd r)) + total_traded (fst r)
     = total_quantity (routed_sell orders)
  /\ total_quantity (OrderBook.buy_orders (snd r))
     + total_quantity (OrderBook.sell_orders (snd r))
     + 2 * total_traded (fst r)
     = total_quantity orders.
Proof.
  cbv zeta.
  destruct (submit_all_conserves orders OrderBook.init) as [Hb Hs].
  pose proof (routed_total orders) as Ht.
  change (total_quantity (OrderBook.buy_orders OrderBook.init)) with 0 in Hb.
  change (total_quantity (OrderBook.sell_orders OrderBook.init)) with 0 in Hs.
  repeat split; lia.
Qed.

(** C5 as written fails: a buy of 10 at 100 and a sell of 10 at 90 leave
    nothing resting and report 10 traded, while 20 were submitted. *)
Lemma C5_conservation_counterexample :
  let orders := [mkOrder "Buy" "STOCK1" 10 100 1; mkOrder "Sell" "STOCK1" 10 90 2] in
  let r := submit_all OrderBook.init orders in
  total_quantity (OrderBook.buy_orders (snd r))
  + total_quantity (OrderBook.sell_orders (snd r))
  + total_traded (fst r)
  <> total_quantity orders.
Proof. vm_compute. discriminate. Qed.

(** ** The price of a trade *)

Lemma same_order_refl o : same_order o o.
Proof. exists (quantity o). destruct o; reflexivity. Qed.

Lemma same_order_set_quantity o q : same_order (set_quantity o q) o.
Proof. exists q. reflexivity. Qed.

Lemma same_order_trans a b c : same_order a b -> same_order b c -> same_order a c.
Proof. intros [q ->] [q' ->]. exists q. reflexivity. Qed.

Lemma same_order_price a b : same_order a b -> price a = price b.
Proof. intros [q ->]. reflexivity. Qed.

Lemma same_order_id a b : same_order a b -> order_id a = order_id b.
Proof. intros [q ->]. reflexivity. Qed.

Lemma orders_from_refl l : orders_from l l.
Proof.
  apply Forall_forall. intros x Hx. exists x.
  split; [apply list_elem_of_In; exact Hx|apply same_order_refl].
Qed.

Lemma orders_from_trans l1 l2 l3 :
  orders_from l1 l2 -> orders_from l2 l3 -> orders_from l1 l3.
Proof.
  unfold orders_from. rewrite !Forall_forall. intros H12 H23 x Hx.
  destruct (H12 x Hx) as (y & Hy & Hxy).
  destruct (H23 y (proj2 (list_elem_of_In _ _) Hy)) as (z & Hz & Hyz).
  exists z. split; [exact Hz|]. eapply same_order_trans; eassumption.
Qed.

Lemma orders_from_step h q rest :
  orders_from (if q =? 0 then rest else set_quantity h q :: rest) (h :: rest).
Proof.
  assert (Hrest : orders_from rest (h :: rest)).
  { apply Forall_forall. intros x Hx. exists x.
    split; [right; apply list_elem_of_In; exact Hx|apply same_order_refl]. }
  destruct (q =? 0); [exact Hrest|].
  constructor; [|exact Hrest].
  exists h. split; [left; reflexivity|apply same_order_set_quantity].
Qed.

Lemma match_iter_orders self m self' :
  OrderBook.match_iter self = Some (m, self') ->
  In (OrderBook.buy_order m) (OrderBook.buy_orders self)
  /\ In (OrderBook.sell_order m) (OrderBook.sell_orders self)
  /\ OrderBook.trade_price m = price (OrderBook.sell_order m)
  /\ price (OrderBook.sell_order m) <= price (OrderBook.buy_order m)
  /\ orders_from (OrderBook.buy_orders self') (OrderBook.buy_orders self)
  /\ orders_from (OrderBook.sell_orders self') (OrderBook.sell_orders self).
Proof.
  intros H.
  destruct (match_iter_Some _ _ _ H)
    as (b & buys & s & sells & Hb & Hs & Hp & -> & Hb' & Hs').
  rewrite Hb, Hs, Hb', Hs'. cbn.
  repeat split; try (left; reflexivity); try assumption;
    apply orders_from_step.
Qed.

(** Every trade of [match_orders] pairs an order of the Buy queue with an
    order of the Sell queue, at the Sell order's price. *)
Lemma match_orders_trades self m :
  In m (fst (OrderBook.match_orders self)) ->
  OrderBook.trade_price m = price (OrderBook.sell_order m)
  /\ price (OrderBook.sell_order m) <= price (OrderBook.buy_order m)
  /\ (exists b, In b (OrderBook.buy_orders self)
                /\ same_order (OrderBook.buy_order m) b)
  /\ (exists s, In s (OrderBook.sell_orders self)
                /\ same_order (OrderBook.sell_order m) s).
Proof.
  revert m.
  apply (match_orders_induction
           (fun self ms _ =>
              forall m, In m ms ->
                OrderBook.trade_price m = price (OrderBook.sell_order m)
                /\ price (OrderBook.sell_order m) <= price (OrderBook.buy_order m)
                /\ (exists b, In b (OrderBook.buy_orders self)
                              /\ same_order (OrderBook.buy_order m) b)
                /\ (exists s, In s (OrderBook.sell_orders self)
                              /\ same_order (OrderBook.sell_order m) s))).
  - intros self0 _ m [].
  - intros self0 m0 self' ms self'' Hi _ IH m [<-|Hm].
    + destruct (match_iter_orders _ _ _ Hi) as (Hb & Hs & Hp & Hle & _).
      repeat split; try assumption.
      * exists (OrderBook.buy_order m0). split; [exact Hb|apply same_order_refl].
      * exists (OrderBook.sell_order m0). split; [exact Hs|apply same_order_refl].
    + destruct (match_iter_orders _ _ _ Hi) as (_ & _ & _ & _ & Hfb & Hfs).
      destruct (IH m Hm) as (Hp & Hle & (b & Hb & Hsb) & (s & Hs & Hss)).
      unfold orders_from in Hfb, Hfs. rewrite Forall_forall in Hfb, Hfs.
      destruct (Hfb b (proj2 (list_elem_of_In _ _) Hb)) as (b0 & Hb0 & Hbb0).
      destruct (Hfs s (proj2 (list_elem_of_In _ _) Hs)) as (s0 & Hs0 & Hss0).
      repeat split; try assumption.
      * exists b0. split; [exact Hb0|eapply same_order_trans; eassumption].
      * exists s0. split; [exact Hs0|eapply same_order_trans; eassumption].
Qed.

(** ** The aggressor is a party to every trade *)

Lemma step_sorted s h q (rest : OrderList.t) :
  sorted s (h :: rest) ->
  sorted s (if q =? 0 then rest else set_quantity h q :: rest).
Proof.
  intros Hs. destruct (q =? 0).
  - apply Sorted_inv in Hs as [Hs _]. exact Hs.
  - apply set_quantity_sorted. exact Hs.
Qed.

Lemma match_iter_sorted self m self' :
  OrderBook.match_iter self = Some (m, self') ->
  sorted Buy (OrderBook.buy_orders self) ->
  sorted Sell (OrderBook.sell_orders self) ->
  sorted Buy (OrderBook.buy_orders self')
  /\ sorted Sell (OrderBook.sell_orders self').
Proof.
  intros H.
  destruct (match_iter_Some _ _ _ H)
    as (b & buys & s & sells & Hb & Hs & Hp & -> & Hb' & Hs').
  rewrite Hb, Hs, Hb', Hs'. intros Sb Ss.
  split; apply step_sorted; assumption.
Qed.

Lemma match_orders_sorted self :
  sorted Buy (OrderBook.buy_orders self) ->
  sorted Sell (OrderBook.sell_orders self) ->
  sorted Buy (OrderBook.buy_orders (snd (OrderBook.match_orders self)))
  /\ sorted Sell (OrderBook.sell_orders (snd (OrderBook.match_orders self))).
Proof.
  apply (match_orders_induction
           (fun self _ self'' =>
              sorted Buy (OrderBook.buy_orders self) ->
              sorted Sell (OrderBook.sell_orders self) ->
              sorted Buy (OrderBook.buy_orders self'')
              /\ sorted Sell (OrderBook.sell_orders self''))).
  - intros self0 _ Sb Ss. split; assumption.
  - intros self0 m self' ms self'' Hi _ IH Sb Ss.
    destruct (match_iter_sorted _ _ _ Hi Sb Ss) as [Sb' Ss'].
    apply IH; assumption.
Qed.

(** Books reached by [OrderBook.add_order] with Buy and Sell orders are
    sorted on both sides and not crossed. *)
Lemma book_add_order_ok self o s :
  order_type o = side_name s ->
  book_ok self -> book_ok (snd (OrderBook.add_order self o)).
Proof.
  intros Ht (Sb & Ss & _). unfold book_ok, OrderBook.add_order.
  match goal with |- context [OrderBook.match_orders ?b] =>
    assert (Hs : sorted Buy (OrderBook.buy_orders b)
                 /\ sorted Sell (OrderBook.sell_orders b)) end.
  { rewrite Ht; destruct s; cbn; split; try assumption;
      apply (add_order_sorted _ _ _ Ht); assumption. }
  destruct Hs as [Sb' Ss'].
  destruct (match_orders_sorted _ Sb' Ss') as [Sb'' Ss''].
  split; [exact Sb''|]. split; [exact Ss''|].
  apply crosses_self_crossed, match_orders_no_cross.
Qed.

Lemma self_crossed_heads b buys buys' s sells sells' :
  self_crossed (OrderBook.mk (b :: buys) (s :: sells))
  <-> self_crossed (OrderBook.mk (b :: buys') (s :: sells')).
Proof.
  unfold self_crossed; cbn. split;
    intros (b0 & bs0 & s0 & ss0 & Hb & Hs & Hp);
    inversion Hb; inversion Hs; subst; eauto 10.
Qed.

Lemma not_crossed_no_trades self :
  ~ self_crossed self -> OrderBook.match_orders self = ([], self).
Proof.
  intros H. apply crosses_self_crossed, match_iter_None in H.
  rewrite match_orders_unfold, H. reflexivity.
Qed.

(** Popping or decrementing the head of a sorted queue cannot create a
    cross with the other queue. *)
Lemma step_keeps_uncrossed_sell buys s q (rest : OrderList.t) :
  sorted Sell (s :: rest) ->
  ~ self_crossed (OrderBook.mk buys (s :: rest)) ->
  ~ self_crossed
      (OrderBook.mk buys (if q =? 0 then rest else set_quantity s q :: rest)).
Proof.
  intros Hs Hn Hc. apply Hn. clear Hn.
  destruct Hc as (b0 & bs0 & s0 & ss0 & Hb & Hs0 & Hp). cbn in Hb, Hs0.
  exists b0, bs0, s, rest. split; [exact Hb|]. split; [reflexivity|].
  destruct (q =? 0).
  - subst rest. apply Sorted_inv in Hs as [_ Hh].
    apply HdRel_inv in Hh. unfold no_worse in Hh. lia.
  - inversion Hs0; subst. cbn in Hp. exact Hp.
Qed.

Lemma step_keeps_uncrossed_buy sells b q (rest : OrderList.t) :
  sorted Buy (b :: rest) ->
  ~ self_crossed (OrderBook.mk (b :: rest) sells) ->
  ~ self_crossed
      (OrderBook.mk (if q =? 0 then rest else set_quantity b q :: rest) sells).
Proof.
  intros Hs Hn Hc. apply Hn. clear Hn.
  destruct Hc as (b0 & bs0 & s0 & ss0 & Hb & Hs0 & Hp). cbn in Hb, Hs0.
  exists b, rest, s0, ss0. split; [reflexivity|]. split; [exact Hs0|].
  destruct (q =? 0).
  - subst rest. apply Sorted_inv in Hs as [_ Hh].
    apply HdRel_inv in Hh. unfold no_worse in Hh. lia.
  - inversion Hb; subst. cbn in Hp. exact Hp.
Qed.

(** After a Buy has been linked at the head of the Buy queue of a book
    that was not crossed, every trade of the loop has that Buy as its
    buy order. *)
Lemma buy_aggressor_trades buys o st :
  sorted Sell (OrderBook.sell_orders st) ->
  (exists o', same_order o' o /\ OrderBook.buy_orders st = o' :: buys
              /\ ~ self_crossed (OrderBook.mk buys (OrderBook.sell_orders st)))
  \/ ~ self_crossed st ->
  forall m, In m (fst (OrderBook.match_orders st)) ->
            same_order (OrderBook.buy_order m) o.
Proof.
  apply (match_orders_induction
           (fun st ms _ =>
              sorted Sell (OrderBook.sell_orders st) ->
              (exists o', same_order o' o /\ OrderBook.buy_orders st = o' :: buys
                          /\ ~ self_crossed (OrderBook.mk buys (OrderBook.sell_orders st)))
              \/ ~ self_crossed st ->
              forall m, In m ms -> same_order (OrderBook.buy_order m) o)).
  - intros st0 _ _ _ m [].
  - intros st0 m0 st' ms st'' Hi _ IH Ss Hinv.
    destruct Hinv as [(o' & Hso & Hbo & Hn)|Hn];
      [|apply crosses_self_crossed, match_iter_None in Hn; congruence].
    destruct (match_iter_Some _ _ _ Hi)
      as (b & bs & s & ss & Hb & Hs & Hp & -> & Hb' & Hs').
    rewrite Hb in Hbo. inversion Hbo; subst b bs; clear Hbo.
    rewrite Hs in Ss, Hn.
    intros m [<-|Hm]; [exact Hso|].
    apply IH; [rewrite Hs'; apply step_sorted; exact Ss| |exact Hm].
    pose proof (step_keeps_uncrossed_sell buys s
                  (quantity s - Z.min (quantity o') (quantity s)) ss Ss Hn) as Hn'.
    rewrite <- Hs' in Hn'.
    destruct (quantity o' - Z.min (quantity o') (quantity s) =? 0).
    + right. destruct st' as [bl sl]; cbn in *. subst bl. exact Hn'.
    + left. eexists. split; [|split; [exact Hb'|exact Hn']].
      eapply same_order_trans; [apply same_order_set_quantity|exact Hso].
Qed.

Lemma sell_aggressor_trades sells o st :
  sorted Buy (OrderBook.buy_orders st) ->
  (exists o', same_order o' o /\ OrderBook.sell_orders st = o' :: sells
              /\ ~ self_crossed (OrderBook.mk (OrderBook.buy_orders st) sells))
  \/ ~ self_crossed st ->
  forall m, In m (fst (OrderBook.match_orders st)) ->
            same_order (OrderBook.sell_order m) o.
Proof.
  apply (match_orders_induction
           (fun st ms _ =>
              sorted Buy (OrderBook.buy_orders st) ->
              (exists o', same_order o' o /\ OrderBook.sell_orders st = o' :: sells
                          /\ ~ self_crossed (OrderBook.mk (OrderBook.buy_orders st) sells))
              \/ ~ self_crossed st ->
              forall m, In m ms -> same_order (OrderBook.sell_order m) o)).
  - intros st0 _ _ _ m [].
  - intros st0 m0 st' ms st'' Hi _ IH Sb Hinv.
    destruct Hinv as [(o' & Hso & Hso' & Hn)|Hn];
      [|apply crosses_self_crossed, match_iter_None in Hn; congruence].
    destruct (match_iter_Some _ _ _ Hi)
      as (b & bs & s & ss & Hb & Hs & Hp & -> & Hb' & Hs').
    rewrite Hs in Hso'. inversion Hso'; subst s ss; clear Hso'.
    rewrite Hb in Sb, Hn.
    intros m [<-|Hm]; [exact Hso|].
    apply IH; [rewrite Hb'; apply step_sorted; exact Sb| |exact Hm].
    pose proof (step_keeps_uncrossed_buy sells b
                  (quantity b - Z.min (quantity b) (quantity o')) bs Sb Hn) as Hn'.
    rewrite <- Hb' in Hn'.
    destruct (quantity o' - Z.min (quantity b) (quantity o') =? 0).
    + right. destruct st' as [bl sl]; cbn in *. subst sl. exact Hn'.
    + left. eexists. split; [|split; [exact Hs'|exact Hn']].
      eapply same_order_trans; [apply same_order_set_quantity|exact Hso].
Qed.

(** In a sorted book that is not crossed, the arriving order is a party
    to every trade its arrival causes. *)
Lemma trades_involve_aggressor self o m :
  book_ok self ->
  In m (fst (OrderBook.add_order self o)) ->
  (order_type o = "Buy"%string -> same_order (OrderBook.buy_order m) o)
  /\ (order_type o = "Sell"%string -> same_order (OrderBook.sell_order m) o).
Proof.
  intros (Sb & Ss & Hn) Hm. unfold OrderBook.add_order in Hm.
  destruct self as [buys sells]; cbn in *.
  split; intros Ht; rewrite Ht in Hm; cbn in Hm.
  - destruct (add_order_split buys o) as (l1 & l2 & -> & Hadd & _).
    rewrite Hadd in Hm. destruct l1 as [|h l1']; cbn in *.
    + refine (buy_aggressor_trades l2 o (OrderBook.mk (o :: l2) sells) Ss _ m Hm).
      left. exists o. split; [apply same_order_refl|]. split; [reflexivity|exact Hn].
    + refine (buy_aggressor_trades [] o
                (OrderBook.mk (h :: l1' ++ o :: l2) sells) Ss _ m Hm).
      right. destruct sells as [|s ss].
      * intros (? & ? & ? & ? & _ & Hs0 & _); discriminate.
      * rewrite (self_crossed_heads h _ (l1' ++ l2) s ss ss). exact Hn.
  - destruct (add_order_split sells o) as (l1 & l2 & -> & Hadd & _).
    rewrite Hadd in Hm. destruct l1 as [|h l1']; cbn in *.
    + refine (sell_aggressor_trades l2 o (OrderBook.mk buys (o :: l2)) Sb _ m Hm).
      left. exists o. split; [apply same_order_refl|]. split; [reflexivity|exact Hn].
    + refine (sell_aggressor_trades [] o
                (OrderBook.mk buys (h :: l1' ++ o :: l2)) Sb _ m Hm).
      right. destruct buys as [|b bs].
      * intros (? & ? & ? & ? & Hb0 & _ & _); discriminate.
      * rewrite (self_crossed_heads b bs bs h _ (l1' ++ l2)). exact Hn.
Qed.

(** Books built from the empty book by submitting Buy and Sell orders
    are sorted on both sides and not crossed. *)
Lemma submit_all_ok orders : forall self,
  Forall (fun o => exists s, order_type o = side_name s) orders ->
  book_ok self -> book_ok (snd (submit_all self orders)).
Proof.
  induction orders as [|o orders IH]; intros self Hty Hok; cbn [submit_all].
  - exact Hok.
  - apply Forall_cons in Hty as [[s Ht] Hty].
    pose proof (book_add_order_ok self o s Ht Hok) as Hok'.
    destruct (OrderBook.add_order self o) as [ts self'].
    specialize (IH self' Hty Hok').
    destruct (submit_all self' orders) as [ts' self'']. exact IH.
Qed.

(** C2 (as amended). Every trade printed by [match_orders] after an order
    arrives executes at the price of the Sell order of the matched pair,
    which is never above the Buy order's price.  When the arriving order
    is a Buy, that Sell order was resting in the book before the arrival,
    so the trade executes at the resting order's price.  When the arriving
    order is a Sell, the Buy order of the pair was resting and the trade
    price is at most its price; in a sorted book that was not crossed the
    Sell order of the pair is the arriving order itself, so the trade
    executes at the aggressor's price. *)
Theorem C2_trade_price_policy self o m :
  In m (fst (OrderBook.add_order self o)) ->
  OrderBook.trade_price m = price (OrderBook.sell_order m)
  /\ price (OrderBook.sell_order m) <= price (OrderBook.buy_order m)
  /\ (order_type o = "Buy"%string ->
      (exists s, In s (OrderBook.sell_orders self)
                 /\ same_order (OrderBook.sell_order m) s
                 /\ OrderBook.trade_price m = price s)
      /\ (book_ok self -> same_order (OrderBook.buy_order m) o))
  /\ (order_type o = "Sell"%string ->
      (exists b, In b (OrderBook.buy_orders self)
                 /\ same_order (OrderBook.buy_order m) b
                 /\ OrderBook.trade_price m <= price b)
      /\ (book_ok self ->
          same_order (OrderBook.sell_order m) o
          /\ OrderBook.trade_price m = price o)).
Proof.
  intros Hm.
  pose proof (fun Hok => trades_involve_aggressor self o m Hok Hm) as Hagg.
  unfold OrderBook.add_order in Hm.
  apply match_orders_trades in Hm
    as (Hp & Hle & (b & Hb & Hsb) & (s & Hs & Hss)).
  split; [exact Hp|]. split; [exact Hle|]. split; intros Ho.
  - rewrite Ho in Hs. cbn in Hs. split.
    + exists s. repeat split; try assumption.
      rewrite Hp. apply same_order_price; exact Hss.
    + intros Hok. apply (Hagg Hok). exact Ho.
  - rewrite Ho in Hb. cbn in Hb. split.
    + exists b. repeat split; try assumption.
      rewrite Hp, <- (same_order_price _ _ Hsb). exact Hle.
    + intros Hok. pose proof (proj2 (Hagg Hok) Ho) as Hso.
      split; [exact Hso|]. rewrite Hp. apply same_order_price; exact Hso.
Qed.

Lemma C2_trade_price_policy_witness :
  let self := OrderBook.mk [] [mkOrder "Sell" "STOCK1" 10 90 1] in
  let o := mkOrder "Buy" "STOCK1" 10 100 2 in
  let m := OrderBook.mkTrade o (mkOrder "Sell" "STOCK1" 10 90 1) 10 90 in
  In m (fst (OrderBook.add_order self o))
  /\ OrderBook.trade_price m = price (OrderBook.sell_order m).
Proof.
  cbv zeta.
  assert (Hin : In (OrderBook.mkTrade (mkOrder "Buy" "STOCK1" 10 100 2)
                      (mkOrder "Sell" "STOCK1" 10 90 1) 10 90)
                   (fst (OrderBook.add_order
                           (OrderBook.mk [] [mkOrder "Sell" "STOCK1" 10 90 1])
                           (mkOrder "Buy" "STOCK1" 10 100 2)))).
  { vm_compute. left. reflexivity. }
  split; [exact Hin|].
  exact (proj1 (C2_trade_price_policy _ _ _ Hin)).
Defined.

(** C2 as written fails when the arriving order is a Sell: a Buy of 10 at
    100 rests in book 1; a Sell of 10 at 90 arrives; the trade pairs the
    resting Buy with the arriving Sell and executes at 90, the arriving
    order's price, not at the resting order's 100. *)
Lemma C2_trade_price_policy_counterexample :
  let e1 := TradingEngine.engine (TradingEngine.add_order TradingEngine.init "Buy" 1 10 100) in
  let r := TradingEngine.add_order e1 "Sell" 1 10 90 in
  exists resting m,
    TradingEngine.order_books e1 !! 0%nat = Some (OrderBook.mk [resting] [])
    /\ TradingEngine.stdout r = [m]
    /\ OrderBook.buy_order m = resting
    /\ order_id (OrderBook.sell_order m) = 2
    /\ OrderBook.trade_price m <> price resting.
Proof.
  eexists _, _. vm_compute.
  repeat split; try reflexivity. discriminate.
Qed.

(** ** FIFO at a price level *)

(** C7 (the code departs from it).  [OrderList.add_order] walks past the
    orders of equal price only for the types ['Buy'] and ['Sell'], and an
    order of another type is linked behind the head whatever its price.
    After Sell(5 at 40), Sell(5 at 50), an order of type ['Hold'] (5 at
    100) and Sell(5 at 50) on instrument 1, the Sell queue holds the ids
    1, 4, 3, 2: the last Sell at 50 (id 4) is linked in front of the
    earlier Sell at 50 (id 2), not after all orders of equal price. *)
Theorem C7_later_order_ahead_of_earlier :
  let r := TradingEngine.run TradingEngine.init
             [TradingEngine.mkCall "Sell" 1 5 40;
              TradingEngine.mkCall "Sell" 1 5 50;
              TradingEngine.mkCall "Hold" 1 5 100;
              TradingEngine.mkCall "Sell" 1 5 50] in
  exists sells,
    TradingEngine.out r = Returned PyNone
    /\ TradingEngine.stdout r = []
    /\ TradingEngine.order_books (TradingEngine.engine r) !! 0%nat
       = Some (OrderBook.mk [] sells)
    /\ map order_id sells = [1; 4; 3; 2]
    /\ map price sells = [40; 50; 100; 50]
    /\ map order_type sells = ["Sell"; "Sell"; "Hold"; "Sell"]%string.
Proof.
  cbv zeta. eexists. vm_compute. repeat split; reflexivity.
Qed.

(** X22. On a sorted queue, [OrderList.add_order] links a new order
    whose type is the name of the queue's side behind every resting order
    whose price is equal to or better than its own and in front of every
    order with a worse price, so behind all orders of equal price.
    Buy(5 at 100), Buy(5 at 100), Sell(7 at 100) on instrument 1 of a
    fresh engine print two trades at price 100, of 5 against the first
    buy and of 2 against the second, and leave the second buy resting
    with quantity 3. *)
Theorem X22_fifo_on_sorted_queue :
  (forall s (l : OrderList.t) o,
      order_type o = side_name s -> sorted s l ->
      exists l1 l2,
        l = l1 ++ l2 /\ OrderList.add_order l o = l1 ++ o :: l2
        /\ Forall (fun x => match s with
                            | Buy => price o <= price x
                            | Sell => price x <= price o
                            end) l1
        /\ Forall (fun y => match s with
                            | Buy => price y < price o
                            | Sell => price o < price y
                            end) l2)
  /\ (let r := TradingEngine.run TradingEngine.init
                 [TradingEngine.mkCall "Buy" 1 5 100;
                  TradingEngine.mkCall "Buy" 1 5 100;
                  TradingEngine.mkCall "Sell" 1 7 100] in
      exists t1 t2 resting,
        TradingEngine.stdout r = [t1; t2]
        /\ order_id (OrderBook.buy_order t1) = 1
        /\ quantity (OrderBook.buy_order t1) = 5
        /\ OrderBook.traded_quantity t1 = 5
        /\ OrderBook.trade_price t1 = 100
        /\ order_id (OrderBook.buy_order t2) = 2
        /\ OrderBook.traded_quantity t2 = 2
        /\ OrderBook.trade_price t2 = 100
        /\ OrderBook.traded_quantity t1 + OrderBook.traded_quantity t2 = 7
        /\ TradingEngine.order_books (TradingEngine.engine r) !! 0%nat
           = Some (OrderBook.mk [resting] [])
        /\ order_id resting = 2 /\ quantity resting = 3 /\ price resting = 100).
Proof.
  split.
  - intros s l o Ht Hs.
    destruct (add_order_position s l o Ht Hs) as (l1 & l2 & Hl & Hadd & H1 & H2).
    exists l1, l2. split; [exact Hl|]. split; [exact Hadd|]. split; [exact H1|].
    eapply Forall_impl; [exact H2|]. intros y Hy.
    destruct s; unfold no_worse in Hy; lia.
  - eexists _, _, _. vm_compute. repeat split; reflexivity.
Qed.

Lemma X22_fifo_on_sorted_queue_witness :
  let l := [mkOrder "Buy" "STOCK1" 5 100 1] in
  let o := mkOrder "Buy" "STOCK1" 5 100 2 in
  sorted Buy l
  /\ exists l1 l2,
       l = l1 ++ l2 /\ OrderList.add_order l o = l1 ++ o :: l2
       /\ Forall (fun x => price o <= price x) l1
       /\ Forall (fun y => price y < price o) l2.
Proof.
  cbv zeta.
  assert (Hs : sorted Buy [mkOrder "Buy" "STOCK1" 5 100 1])
    by (repeat constructor).
  split; [exact Hs|].
  exact (proj1 X22_fifo_on_sorted_queue Buy _ (mkOrder "Buy" "STOCK1" 5 100 2) eq_refl Hs).
Defined.

(** ** What [TradingEngine.add_order] checks and returns *)

(** C3 (as amended). [TradingEngine.add_order] validates nothing: the
    only calls it rejects are those whose index Python's list indexing
    rejects, [ticker_index] below [1 - N] or above [N].  Such a call
    raises [IndexError], leaves every order book as it was and prints
    nothing, after the sequence counter has been incremented.  Every other
    call returns, whatever the quantity and the price. *)
Theorem C3_rejected_calls self ot idx q p :
  let n := Z.of_nat (length (TradingEngine.order_books self)) in
  let r := TradingEngine.add_order self ot idx q p in
  (idx < 1 - n \/ n < idx ->
     TradingEngine.out r = Raised IndexError
     /\ TradingEngine.order_books (TradingEngine.engine r)
        = TradingEngine.order_books self
     /\ TradingEngine.stdout r = []
     /\ TradingEngine.order_id_counter (TradingEngine.engine r)
        = TradingEngine.order_id_counter self + 1)
  /\ (1 - n <= idx <= n -> TradingEngine.out r = Returned PyNone).
Proof.
  cbv zeta. split.
  - intros Hidx.
    assert (Hn : py_index (TradingEngine.order_books self) (idx - 1) = None)
      by (apply py_index_None; lia).
    rewrite (add_order_raises _ _ _ _ _ Hn). cbn. repeat split.
  - intros Hidx.
    destruct (add_order_outcome self ot idx q p) as [(k & _ & Hr)|[Hn _]];
      [exact Hr|].
    apply py_index_None in Hn. lia.
Qed.

Lemma C3_rejected_calls_witness :
  let r := TradingEngine.add_order TradingEngine.init "Buy" 1025 10 100 in
  TradingEngine.out r = Raised IndexError
  /\ TradingEngine.order_id_counter (TradingEngine.engine r) = 1.
Proof.
  cbv zeta.
  destruct (proj1 (C3_rejected_calls TradingEngine.init "Buy" 1025 10 100))
    as (Hout & _ & _ & Hc).
  - right. vm_compute. reflexivity.
  - split; [exact Hout|exact Hc].
Defined.

(** C3 as written fails: index 0 is outside [1, 1024], yet the call
    returns and book 1023 holds the order; a quantity of -5 and a price
    of 0 are accepted and the order rests in book 0; index 1025 raises,
    but the sequence counter has changed. *)
Lemma C3_rejected_calls_counterexample :
  (let r := TradingEngine.add_order TradingEngine.init "Buy" 0 10 100 in
   TradingEngine.out r = Returned PyNone
   /\ TradingEngine.order_books TradingEngine.init !! 1023%nat = Some OrderBook.init
   /\ TradingEngine.order_books (TradingEngine.engine r) !! 1023%nat
      = Some (OrderBook.mk [mkOrder "Buy" "STOCK0" 10 100 1] []))
  /\ (let r := TradingEngine.add_order TradingEngine.init "Sell" 1 (-5) 0 in
      TradingEngine.out r = Returned PyNone
      /\ TradingEngine.order_books (TradingEngine.engine r) !! 0%nat
         = Some (OrderBook.mk [] [mkOrder "Sell" "STOCK1" (-5) 0 1]))
  /\ (let r := TradingEngine.add_order TradingEngine.init "Buy" 1025 10 100 in
      TradingEngine.out r = Raised IndexError
      /\ TradingEngine.order_id_counter (TradingEngine.engine r)
         <> TradingEngine.order_id_counter TradingEngine.init).
Proof.
  vm_compute. repeat split; try reflexivity. discriminate.
Qed.

(** C8 (as amended). [TradingEngine.add_order] has no [return] statement:
    whenever a call returns, it returns [None].  The id obtained from the
    sequence generator, the counter's value after the increment, is stored
    in the [order_id] of the new order and is not given to the caller. *)
Theorem C8_add_order_returns_none self ot idx q p :
  let r := TradingEngine.add_order self ot idx q p in
  (forall v, TradingEngine.out r = Returned v -> v = PyNone)
  /\ order_id (TradingEngine.new_order self ot idx q p)
     = TradingEngine.order_id_counter self + 1
  /\ TradingEngine.order_id_counter (TradingEngine.engine r)
     = TradingEngine.order_id_counter self + 1.
Proof.
  cbv zeta. split; [|split].
  - intros v Hv.
    destruct (add_order_outcome self ot idx q p) as [(k & _ & Hr)|[_ Hr]];
      congruence.
  - reflexivity.
  - destruct (py_index (TradingEngine.order_books self) (idx - 1)) as [k|] eqn:Hk.
    + destruct (add_order_returns self ot idx q p k Hk) as (book & _ & ->).
      reflexivity.
    + rewrite add_order_raises by exact Hk. reflexivity.
Qed.

Lemma C8_add_order_returns_none_witness :
  let r := TradingEngine.add_order TradingEngine.init "Buy" 1 10 100 in
  TradingEngine.out r = Returned PyNone.
Proof.
  cbv zeta.
  assert (H : TradingEngine.out (TradingEngine.add_order TradingEngine.init "Buy" 1 10 100)
              = Returned PyNone) by (vm_compute; reflexivity).
  pose proof (proj1 (C8_add_order_returns_none TradingEngine.init "Buy" 1 10 100)
                PyNone H) as _.
  exact H.
Defined.

(** C8 as written fails: the first order of a fresh engine is given id 1,
    and the call returns [None], not the integer 1. *)
Lemma C8_add_order_returns_none_counterexample :
  let r := TradingEngine.add_order TradingEngine.init "Buy" 1 10 100 in
  TradingEngine.order_books (TradingEngine.engine r) !! 0%nat
  = Some (OrderBook.mk [mkOrder "Buy" "STOCK1" 10 100 1] [])
  /\ TradingEngine.out r <> Returned (PyInt 1).
Proof.
  vm_compute. split; [reflexivity|discriminate].
Qed.

(** ** Index 0 *)

Lemma match_orders_one_sided (l : OrderList.t) :
  OrderBook.match_orders (OrderBook.mk l []) = ([], OrderBook.mk l [])
  /\ OrderBook.match_orders (OrderBook.mk [] l) = ([], OrderBook.mk [] l).
Proof.
  split; rewrite match_orders_unfold; unfold OrderBook.match_iter; cbn;
    destruct l; reflexivity.
Qed.

(** C10. On an engine with its 1024 books, a call with [ticker_index = 0]
    raises nothing: [order_books[-1]] is the last book, so the call
    returns and the new order, with ticker [STOCK0], is added to the book
    at index 1023, all other books staying as they were.  On a fresh
    engine the order is then resting in book 1023. *)
Theorem C10_ticker_index_zero :
  (forall self ot q p,
      length (TradingEngine.order_books self) = 1024%nat ->
      let r := TradingEngine.add_order self ot 0 q p in
      let o := TradingEngine.new_order self ot 0 q p in
      TradingEngine.out r = Returned PyNone
      /\ ticker o = "STOCK0"%string
      /\ exists book,
           TradingEngine.order_books self !! 1023%nat = Some book
           /\ TradingEngine.order_books (TradingEngine.engine r) !! 1023%nat
              = Some (snd (OrderBook.add_order book o))
           /\ forall j, j <> 1023%nat ->
                TradingEngine.order_books (TradingEngine.engine r) !! j
                = TradingEngine.order_books self !! j)
  /\ (forall ot q p,
        let r := TradingEngine.add_order TradingEngine.init ot 0 q p in
        let o := mkOrder ot "STOCK0" q p 1 in
        TradingEngine.order_books (TradingEngine.engine r) !! 1023%nat
        = Some (if String.eqb ot "Buy" then OrderBook.mk [o] []
                else OrderBook.mk [] [o])).
Proof.
  assert (Hgen : forall self ot q p,
      length (TradingEngine.order_books self) = 1024%nat ->
      TradingEngine.out (TradingEngine.add_order self ot 0 q p) = Returned PyNone
      /\ exists book,
           TradingEngine.order_books self !! 1023%nat = Some book
           /\ TradingEngine.order_books
                (TradingEngine.engine (TradingEngine.add_order self ot 0 q p))
                !! 1023%nat
              = Some (snd (OrderBook.add_order book
                             (TradingEngine.new_order self ot 0 q p)))
           /\ forall j, j <> 1023%nat ->
                TradingEngine.order_books
                  (TradingEngine.engine (TradingEngine.add_order self ot 0 q p)) !! j
                = TradingEngine.order_books self !! j).
  { intros self ot q p Hlen.
    assert (Hk : py_index (TradingEngine.order_books self) (0 - 1) = Some 1023%nat)
      by (unfold py_index; rewrite Hlen; reflexivity).
    destruct (add_order_returns self ot 0 q p _ Hk) as (book & Hbook & ->).
    cbn [TradingEngine.out TradingEngine.engine TradingEngine.order_books].
    split; [reflexivity|]. exists book. split; [exact Hbook|]. split.
    - apply list_lookup_insert_eq. rewrite Hlen. lia.
    - intros j Hj. apply list_lookup_insert_ne. congruence. }
  split.
  - intros self ot q p Hlen. cbv zeta.
    destruct (Hgen self ot q p Hlen) as (Hout & Hbook).
    split; [exact Hout|]. split; [reflexivity|exact Hbook].
  - intros ot q p. cbv zeta.
    destruct (Hgen TradingEngine.init ot q p) as (_ & book & Hbook & -> & _).
    { apply length_replicate. }
    assert (book = OrderBook.init) as ->.
    { unfold TradingEngine.init in Hbook. cbn [TradingEngine.order_books] in Hbook.
      apply lookup_replicate in Hbook. tauto. }
    f_equal. unfold OrderBook.add_order, TradingEngine.new_order.
    cbn [order_type OrderBook.init OrderBook.buy_orders OrderBook.sell_orders
         OrderList.init OrderList.add_order].
    unfold OrderList.add_order, OrderList.add_order_attempt.
    rewrite compare_and_swap_head_same. cbn [snd].
    destruct (String.eqb ot "Buy");
      [rewrite (proj1 (match_orders_one_sided _))
      |rewrite (proj2 (match_orders_one_sided _))]; reflexivity.
Qed.

Lemma C10_ticker_index_zero_witness :
  length (TradingEngine.order_books TradingEngine.init) = 1024%nat
  /\ TradingEngine.out (TradingEngine.add_order TradingEngine.init "Buy" 0 10 100)
     = Returned PyNone.
Proof.
  assert (Hlen : length (TradingEngine.order_books TradingEngine.init) = 1024%nat)
    by (vm_compute; reflexivity).
  split; [exact Hlen|].
  exact (proj1 (proj1 C10_ticker_index_zero TradingEngine.init "Buy" 10 100 Hlen)).
Defined.

(** ** Instances of the theorems above *)

Lemma C4_no_self_cross_persists_witness :
  let e1 := TradingEngine.engine
              (TradingEngine.add_order TradingEngine.init "Sell" 1 5 90) in
  let r := TradingEngine.add_order e1 "Buy" 1 12 97 in
  TradingEngine.out r = Returned PyNone
  /\ TradingEngine.order_books e1 !! 0%nat
     = Some (OrderBook.mk [] [mkOrder "Sell" "STOCK1" 5 90 1])
  /\ TradingEngine.stdout r
     = [OrderBook.mkTrade (mkOrder "Buy" "STOCK1" 12 97 2)
                          (mkOrder "Sell" "STOCK1" 5 90 1) 5 90]
  /\ exists k book,
       py_index (TradingEngine.order_books e1) (1 - 1) = Some k
       /\ TradingEngine.order_books (TradingEngine.engine r) !! k = Some book
       /\ ~ self_crossed book.
Proof.
  cbv zeta.
  assert (H : TradingEngine.out
                (TradingEngine.add_order
                   (TradingEngine.engine
                      (TradingEngine.add_order TradingEngine.init "Sell" 1 5 90))
                   "Buy" 1 12 97)
              = Returned PyNone) by (vm_compute; reflexivity).
  split; [exact H|].
  split; [vm_compute; reflexivity|].
  split; [vm_compute; reflexivity|].
  exact (proj2 C4_no_self_cross_persists
           (TradingEngine.engine
              (TradingEngine.add_order TradingEngine.init "Sell" 1 5 90))
           "Buy" 1 12 97 PyNone H).
Defined.

Lemma C9_match_orders_terminates_witness :
  let self := OrderBook.mk [mkOrder "Buy" "STOCK1" 5 100 1; mkOrder "Buy" "STOCK1" 5 100 2]
                           [mkOrder "Sell" "STOCK1" 7 100 3] in
  positive_quantities self
  /\ OrderBook.match_loop 4 self = Some (OrderBook.match_orders self).
Proof.
  cbv zeta.
  assert (Hpos : positive_quantities
                   (OrderBook.mk [mkOrder "Buy" "STOCK1" 5 100 1;
                                  mkOrder "Buy" "STOCK1" 5 100 2]
                                 [mkOrder "Sell" "STOCK1" 7 100 3])).
  { split; repeat constructor. }
  split; [exact Hpos|].
  apply (proj1 (proj2 (C9_match_orders_terminates _ Hpos))).
  vm_compute. lia.
Defined.

(** The first scenario of the specification: Buy(10 at 100) then
    Sell(10 at 90) on instrument 1 print one trade, at 90 for 10, and
    leave both queues of the book empty. *)
Lemma scenario_buy_then_sell :
  let r := TradingEngine.run TradingEngine.init
             [TradingEngine.mkCall "Buy" 1 10 100;
              TradingEngine.mkCall "Sell" 1 10 90] in
  map OrderBook.printed (TradingEngine.stdout r)
  = ["Matched Order: STOCK1 | Price: 90 | Quantity: 10"%string]
  /\ TradingEngine.order_books (TradingEngine.engine r) !! 0%nat
     = Some OrderBook.init.
Proof. vm_compute. split; reflexivity. Qed.

(** * Further properties of the code *)

(** ** OrderList *)

(** X1. Run by a single thread, both compare-and-swap retry loops leave
    at their first pass: [add_order] and [pop_head] return, with the
    results used throughout this development. *)
Theorem X1_retry_loops_first_pass fuel (self : OrderList.t) o :
  OrderList.add_order_loop (S fuel) self o = Some (OrderList.add_order self o)
  /\ fst (OrderList.add_order_attempt self o) = true
  /\ OrderList.pop_head_loop (S fuel) self = Some (OrderList.pop_head self).
Proof.
  split; [apply add_order_loop_once|].
  split; [apply add_order_attempt_done|apply pop_head_loop_once].
Qed.

(** X2. [add_order] links the new order once and leaves the others as
    they were, in the same relative order, whatever the order's type and
    whether or not the queue is sorted. *)
Theorem X2_add_order_inserts_once (l : OrderList.t) o :
  (exists l1 l2, l = l1 ++ l2 /\ OrderList.add_order l o = l1 ++ o :: l2)
  /\ Permutation (OrderList.add_order l o) (o :: l)
  /\ length (OrderList.add_order l o) = S (length l).
Proof.
  destruct (add_order_split l o) as (l1 & l2 & Hl & Hadd & _).
  split; [exists l1, l2; split; assumption|].
  rewrite Hadd, Hl. split.
  - symmetry. apply Permutation_middle.
  - rewrite !length_app. cbn. lia.
Qed.

(** X3. An order whose type is neither ['Buy'] nor ['Sell'] passes
    neither price test: in a non-empty queue it is linked directly behind
    the head, whatever the prices, and [OrderBook.add_order] sends it to
    the Sell queue. *)
Theorem X3_other_type_behind_head o :
  order_type o <> "Buy"%string -> order_type o <> "Sell"%string ->
  (forall h tl, OrderList.add_order (h :: tl) o = h :: o :: tl)
  /\ (forall buys s sells,
        OrderBook.add_order (OrderBook.mk buys (s :: sells)) o
        = OrderBook.match_orders (OrderBook.mk buys (s :: o :: sells))).
Proof.
  intros Hb Hs.
  apply String.eqb_neq in Hb. apply String.eqb_neq in Hs.
  assert (Hadd : forall h tl, OrderList.add_order (h :: tl) o = h :: o :: tl).
  { intros h tl.
    unfold OrderList.add_order, OrderList.add_order_attempt, OrderList.goes_first.
    rewrite Hb, Hs. cbn [andb orb].
    assert (Hw : OrderList.walk o h tl = ([h], tl)).
    { destruct tl as [|n tl]; cbn; [reflexivity|].
      unfold OrderList.walks_past. rewrite Hb, Hs. reflexivity. }
    rewrite Hw, compare_and_swap_next_same. reflexivity. }
  split; [exact Hadd|].
  intros buys s sells. unfold OrderBook.add_order. rewrite Hb. cbn.
  rewrite Hadd. reflexivity.
Qed.

Lemma X3_other_type_behind_head_witness :
  let o := mkOrder "sell" "STOCK1" 5 50 3 in
  let h := mkOrder "Sell" "STOCK1" 5 100 1 in
  let tl := [mkOrder "Sell" "STOCK1" 5 200 2] in
  order_type o <> "Buy"%string /\ order_type o <> "Sell"%string
  /\ OrderList.add_order (h :: tl) o = h :: o :: tl
  /\ ~ sorted Sell (OrderList.add_order (h :: tl) o).
Proof.
  cbv zeta.
  assert (Hb : order_type (mkOrder "sell" "STOCK1" 5 50 3) <> "Buy"%string)
    by discriminate.
  assert (Hs : order_type (mkOrder "sell" "STOCK1" 5 50 3) <> "Sell"%string)
    by discriminate.
  pose proof (proj1 (X3_other_type_behind_head _ Hb Hs)
                (mkOrder "Sell" "STOCK1" 5 100 1)
                [mkOrder "Sell" "STOCK1" 5 200 2]) as Hadd.
  split; [exact Hb|]. split; [exact Hs|]. split; [exact Hadd|].
  rewrite Hadd. intros Hsorted.
  apply Sorted_inv in Hsorted as [_ Hh]. apply HdRel_inv in Hh.
  unfold no_worse in Hh. cbn in Hh. lia.
Defined.

(** X4. Price-time priority at the head, for an order whose type is the
    name of the queue's side (a ['Buy'] order, for which a higher price
    is better, or a ['Sell'] order, for which a lower price is better).
    After [add_order] of such an order on a non-empty queue, [pop_head]
    returns the new order, leaving the old queue, when its price is
    strictly better than the old head's, and returns the old head when
    the old head's price is at least as good.  [pop_head] on a queue
    holding only the new order returns it, and on the empty queue
    returns [None]. *)
Theorem X4_pop_head_after_add_order s o :
  order_type o = side_name s ->
  (forall h tl,
      ~ no_worse s h o ->
      OrderList.pop_head (OrderList.add_order (h :: tl) o) = (Some o, h :: tl))
  /\ (forall h tl,
        no_worse s h o ->
        fst (OrderList.pop_head (OrderList.add_order (h :: tl) o)) = Some h)
  /\ OrderList.pop_head (OrderList.add_order [] o) = (Some o, [])
  /\ OrderList.pop_head [] = (None, []).
Proof.
  intros Ht. split; [|split; [|split]].
  - intros h tl Hn. apply (goes_first_side s o h Ht) in Hn.
    unfold OrderList.add_order, OrderList.add_order_attempt.
    rewrite Hn, compare_and_swap_head_same. reflexivity.
  - intros h tl Hn.
    assert (Hg : OrderList.goes_first o h = false).
    { destruct (OrderList.goes_first o h) eqn:Hg; [|reflexivity].
      apply (goes_first_side s o h Ht) in Hg. contradiction. }
    destruct (add_order_split (h :: tl) o) as (l1 & l2 & Hl & -> & Hpos).
    destruct l1 as [|h' l1'].
    + cbn in Hl. subst l2. congruence.
    + inversion Hl; subst. reflexivity.
  - unfold OrderList.add_order, OrderList.add_order_attempt.
    rewrite compare_and_swap_head_same. reflexivity.
  - reflexivity.
Qed.

Lemma X4_pop_head_after_add_order_witness :
  let o := mkOrder "Buy" "STOCK1" 5 100 2 in
  let h := mkOrder "Buy" "STOCK1" 5 100 1 in
  order_type o = side_name Buy /\ no_worse Buy h o
  /\ fst (OrderList.pop_head (OrderList.add_order [h] o)) = Some h.
Proof.
  cbv zeta.
  assert (Hn : no_worse Buy (mkOrder "Buy" "STOCK1" 5 100 1)
                 (mkOrder "Buy" "STOCK1" 5 100 2)) by (cbn; lia).
  split; [reflexivity|]. split; [exact Hn|].
  exact (proj1 (proj2 (X4_pop_head_after_add_order Buy
                         (mkOrder "Buy" "STOCK1" 5 100 2) eq_refl))
           (mkOrder "Buy" "STOCK1" 5 100 1) [] Hn).
Defined.

(** ** OrderBook *)

(** X5. [match_orders] prints a trade exactly when the book is crossed;
    on a book that is not crossed (in particular when a queue is empty)
    it changes nothing. *)
Theorem X5_match_orders_trades_iff_crossed self :
  (fst (OrderBook.match_orders self) = [] <-> ~ self_crossed self)
  /\ (~ self_crossed self -> OrderBook.match_orders self = ([], self)).
Proof.
  split; [split|].
  - intros Hts. apply crosses_self_crossed, match_iter_None.
    rewrite match_orders_unfold in Hts.
    destruct (OrderBook.match_iter self) as [[m self']|]; [discriminate|reflexivity].
  - intros Hn. rewrite not_crossed_no_trades by exact Hn. reflexivity.
  - apply not_crossed_no_trades.
Qed.

Lemma X5_match_orders_trades_iff_crossed_witness :
  let self := OrderBook.mk [mkOrder "Buy" "STOCK1" 5 90 1]
                           [mkOrder "Sell" "STOCK1" 5 100 2] in
  ~ self_crossed self /\ OrderBook.match_orders self = ([], self).
Proof.
  cbv zeta.
  assert (Hn : ~ self_crossed (OrderBook.mk [mkOrder "Buy" "STOCK1" 5 90 1]
                                            [mkOrder "Sell" "STOCK1" 5 100 2])).
  { apply crosses_self_crossed. reflexivity. }
  split; [exact Hn|].
  exact (proj2 (X5_match_orders_trades_iff_crossed _) Hn).
Defined.

(** X6. Draining is idempotent: [match_orders] run again on the book it
    left prints nothing and changes nothing. *)
Theorem X6_match_orders_idempotent self :
  OrderBook.match_orders (snd (OrderBook.match_orders self))
  = ([], snd (OrderBook.match_orders self)).
Proof.
  apply not_crossed_no_trades, crosses_self_crossed, match_orders_no_cross.
Qed.

Lemma consumed_from_head_refl (l : OrderList.t) : consumed_from_head l l.
Proof. exists 0%nat. left. reflexivity. Qed.

(** One iteration followed by what the rest of the loop consumes. *)
Lemma consumed_from_head_step (l'' : OrderList.t) b q bs :
  consumed_from_head l'' (if q =? 0 then bs else set_quantity b q :: bs) ->
  consumed_from_head l'' (b :: bs).
Proof.
  intros [n H]. destruct (q =? 0).
  - exists (S n). exact H.
  - destruct n as [|n].
    + exists 0%nat. right. cbn in H.
      destruct H as [->|(h & q' & rest & Hd & ->)].
      * exists b, q, bs. split; reflexivity.
      * inversion Hd; subst. exists b, q', rest. split; reflexivity.
    + exists (S n). exact H.
Qed.

Lemma match_orders_consumed self :
  consumed_from_head (OrderBook.buy_orders (snd (OrderBook.match_orders self)))
                     (OrderBook.buy_orders self)
  /\ consumed_from_head (OrderBook.sell_orders (snd (OrderBook.match_orders self)))
                        (OrderBook.sell_orders self).
Proof.
  apply (match_orders_induction
           (fun self _ self'' =>
              consumed_from_head (OrderBook.buy_orders self'')
                                 (OrderBook.buy_orders self)
              /\ consumed_from_head (OrderBook.sell_orders self'')
                                    (OrderBook.sell_orders self))).
  - intros self0 _. split; apply consumed_from_head_refl.
  - intros self0 m self' ms self'' Hi _ [IHb IHs].
    destruct (match_iter_Some _ _ _ Hi)
      as (b & buys & s & sells & Hb & Hs & _ & _ & Hb' & Hs').
    rewrite Hb, Hs. rewrite Hb' in IHb. rewrite Hs' in IHs.
    split; eapply consumed_from_head_step; eassumption.
Qed.

(** X7. [match_orders] only consumes from the two heads: each queue it
    leaves is a suffix of the queue it found, in which at most the first
    order has another quantity.  No order behind a head is touched before
    every order in front of it has been filled and unlinked. *)
Theorem X7_match_orders_consumes_heads self :
  consumed_from_head (OrderBook.buy_orders (snd (OrderBook.match_orders self)))
                     (OrderBook.buy_orders self)
  /\ consumed_from_head (OrderBook.sell_orders (snd (OrderBook.match_orders self)))
                        (OrderBook.sell_orders self).
Proof. exact (match_orders_consumed self). Qed.

(** ** Positive quantities *)

Lemma add_order_Forall (P : Order -> Prop) (l : OrderList.t) o :
  Forall P l -> P o -> Forall P (OrderList.add_order l o).
Proof.
  intros Hl Ho.
  destruct (add_order_split l o) as (l1 & l2 & -> & -> & _).
  apply Forall_app in Hl as [H1 H2].
  apply Forall_app. split; [exact H1|]. constructor; assumption.
Qed.

Lemma match_orders_positive self :
  positive_quantities self ->
  positive_quantities (snd (OrderBook.match_orders self))
  /\ Forall (fun m => 0 < OrderBook.traded_quantity m
                      /\ OrderBook.traded_quantity m <= quantity (OrderBook.buy_order m)
                      /\ OrderBook.traded_quantity m <= quantity (OrderBook.sell_order m))
            (fst (OrderBook.match_orders self)).
Proof.
  apply (match_orders_induction
           (fun self ms self'' =>
              positive_quantities self ->
              positive_quantities self''
              /\ Forall (fun m => 0 < OrderBook.traded_quantity m
                                  /\ OrderBook.traded_quantity m
                                     <= quantity (OrderBook.buy_order m)
                                  /\ OrderBook.traded_quantity m
                                     <= quantity (OrderBook.sell_order m)) ms)).
  - intros self0 _ Hpos. split; [exact Hpos|constructor].
  - intros self0 m self' ms self'' Hi _ IH Hpos.
    destruct (match_iter_positive _ _ _ Hpos Hi) as [Htq Hpos'].
    destruct (IH Hpos') as [Hfin Hall]. split; [exact Hfin|].
    constructor; [|exact Hall]. split; [exact Htq|].
    destruct (match_iter_Some _ _ _ Hi)
      as (b & buys & s & sells & _ & _ & _ & -> & _ & _).
    cbn. lia.
Qed.

(** X8. Positive quantities are kept: when every resting order of a book
    has a positive quantity and the arriving order has one, every trade
    printed has a positive quantity, at most the remaining quantity of
    each of its two orders, and every order left resting has a positive
    quantity: a filled order never stays in a queue. *)
Theorem X8_positive_quantities_kept self o :
  positive_quantities self -> 0 < quantity o ->
  positive_quantities (snd (OrderBook.add_order self o))
  /\ Forall (fun m => 0 < OrderBook.traded_quantity m
                      /\ OrderBook.traded_quantity m <= quantity (OrderBook.buy_order m)
                      /\ OrderBook.traded_quantity m <= quantity (OrderBook.sell_order m))
            (fst (OrderBook.add_order self o)).
Proof.
  intros [Hb Hs] Ho. unfold OrderBook.add_order.
  apply match_orders_positive.
  destruct (String.eqb (order_type o) "Buy"); split; cbn;
    try assumption; apply add_order_Forall; assumption.
Qed.

Lemma X8_positive_quantities_kept_witness :
  let self := OrderBook.mk [] [mkOrder "Sell" "STOCK1" 7 100 1] in
  let o := mkOrder "Buy" "STOCK1" 5 100 2 in
  positive_quantities self /\ 0 < quantity o
  /\ positive_quantities (snd (OrderBook.add_order self o)).
Proof.
  cbv zeta.
  assert (Hpos : positive_quantities
                   (OrderBook.mk [] [mkOrder "Sell" "STOCK1" 7 100 1]))
    by (split; repeat constructor).
  assert (Hq : 0 < quantity (mkOrder "Buy" "STOCK1" 5 100 2)) by (cbn; lia).
  split; [exact Hpos|]. split; [exact Hq|].
  exact (proj1 (X8_positive_quantities_kept _ _ Hpos Hq)).
Defined.

(** ** TradingEngine *)

(** The two ways a call can end. *)
Lemma add_order_cases self ot idx q p :
  let r := TradingEngine.add_order self ot idx q p in
  let n := Z.of_nat (length (TradingEngine.order_books self)) in
  TradingEngine.order_id_counter (TradingEngine.engine r)
  = TradingEngine.order_id_counter self + 1
  /\ ((TradingEngine.out r = Raised IndexError
       /\ (idx < 1 - n \/ n < idx)
       /\ TradingEngine.order_books (TradingEngine.engine r)
          = TradingEngine.order_books self
       /\ TradingEngine.stdout r = [])
      \/ (exists k book,
            TradingEngine.out r = Returned PyNone
            /\ 1 - n <= idx <= n
            /\ (Z.of_nat k = idx - 1 \/ Z.of_nat k = idx - 1 + n)
            /\ TradingEngine.order_books self !! k = Some book
            /\ TradingEngine.order_books (TradingEngine.engine r)
               = <[k := snd (OrderBook.add_order book
                               (TradingEngine.new_order self ot idx q p))]>
                   (TradingEngine.order_books self)
            /\ TradingEngine.stdout r
               = fst (OrderBook.add_order book
                        (TradingEngine.new_order self ot idx q p)))).
Proof.
  cbv zeta.
  destruct (py_index (TradingEngine.order_books self) (idx - 1)) as [k|] eqn:Hk.
  - destruct (add_order_returns self ot idx q p k Hk) as (book & Hbook & ->).
    cbn. split; [reflexivity|]. right. exists k, book.
    apply py_index_Some in Hk as [Hlt Hk].
    repeat split; try reflexivity; try assumption; lia.
  - rewrite add_order_raises by exact Hk. cbn. split; [reflexivity|]. left.
    apply py_index_None in Hk. repeat split; lia.
Qed.

(** X9. A call touches at most one book and never changes the number of
    books: every book other than the one Python's indexing selects for
    [ticker_index - 1] is left as it was. *)
Theorem X9_add_order_frame self ot idx q p :
  let r := TradingEngine.add_order self ot idx q p in
  let n := Z.of_nat (length (TradingEngine.order_books self)) in
  length (TradingEngine.order_books (TradingEngine.engine r))
  = length (TradingEngine.order_books self)
  /\ forall j,
       Z.of_nat j <> idx - 1 -> Z.of_nat j <> idx - 1 + n ->
       TradingEngine.order_books (TradingEngine.engine r) !! j
       = TradingEngine.order_books self !! j.
Proof.
  cbv zeta.
  destruct (add_order_cases self ot idx q p)
    as [_ [(_ & _ & -> & _)|(k & book & _ & _ & Hk & _ & -> & _)]].
  - split; reflexivity.
  - split; [apply length_insert|].
    intros j H1 H2. apply list_lookup_insert_ne. lia.
Qed.

Lemma X9_add_order_frame_witness :
  let r := TradingEngine.add_order TradingEngine.init "Buy" 1 10 100 in
  Z.of_nat 5 <> 1 - 1
  /\ TradingEngine.order_books (TradingEngine.engine r) !! 5%nat
     = TradingEngine.order_books TradingEngine.init !! 5%nat.
Proof.
  cbv zeta.
  assert (H1 : Z.of_nat 5 <> 1 - 1) by (cbn; lia).
  split; [exact H1|].
  apply (proj2 (X9_add_order_frame TradingEngine.init "Buy" 1 10 100) 5%nat H1).
  vm_compute. discriminate.
Defined.

(** Invariants of single calls are invariants of runs. *)
Lemma run_invariant (I : TradingEngine.t -> Prop) (Pc : TradingEngine.call -> Prop) :
  (forall e c, Pc c -> I e ->
     I (TradingEngine.engine
          (TradingEngine.add_order e (TradingEngine.c_type c)
             (TradingEngine.c_ticker_index c) (TradingEngine.c_quantity c)
             (TradingEngine.c_price c)))) ->
  forall calls e,
    Forall Pc calls -> I e -> I (TradingEngine.engine (TradingEngine.run e calls)).
Proof.
  intros Hstep. induction calls as [|c calls IH]; intros e Hall He; cbn.
  - exact He.
  - apply Forall_cons in Hall as [Hc Hall].
    specialize (Hstep e c Hc He).
    destruct (TradingEngine.out (TradingEngine.add_order e _ _ _ _)); cbn.
    + apply IH; assumption.
    + exact Hstep.
Qed.

Lemma run_valid_indices self calls :
  let n := Z.of_nat (length (TradingEngine.order_books self)) in
  Forall (fun c => 1 - n <= TradingEngine.c_ticker_index c <= n) calls ->
  let r := TradingEngine.run self calls in
  TradingEngine.out r = Returned PyNone
  /\ TradingEngine.order_id_counter (TradingEngine.engine r)
     = TradingEngine.order_id_counter self + Z.of_nat (length calls)
  /\ length (TradingEngine.order_books (TradingEngine.engine r))
     = length (TradingEngine.order_books self).
Proof.
  cbv zeta. revert self.
  induction calls as [|c calls IH]; intros self Hall; cbn [TradingEngine.run].
  - cbn. repeat split. lia.
  - apply Forall_cons in Hall as [Hc Hall].
    destruct (add_order_cases self (TradingEngine.c_type c)
                (TradingEngine.c_ticker_index c) (TradingEngine.c_quantity c)
                (TradingEngine.c_price c))
      as [Hcnt [(_ & Hbad & _)|(k & book & Hout & _ & _ & _ & Hbooks & _)]];
      [lia|].
    rewrite Hout. cbn.
    assert (Hlen : length (TradingEngine.order_books
                             (TradingEngine.engine
                                (TradingEngine.add_order self (TradingEngine.c_type c)
                                   (TradingEngine.c_ticker_index c)
                                   (TradingEngine.c_quantity c)
                                   (TradingEngine.c_price c))))
                   = length (TradingEngine.order_books self))
      by (rewrite Hbooks; apply length_insert).
    rewrite <- Hlen in Hall.
    destruct (IH _ Hall) as (Ho & Hc' & Hl').
    rewrite Ho, Hc', Hl', Hcnt, Hlen. repeat split. lia.
Qed.

(** X10. Every call consumes one id, whether it returns or raises.  A run
    of calls whose indices Python's indexing accepts returns, and leaves
    the counter advanced by the number of calls. *)
Theorem X10_ids_consumed self calls :
  let n := Z.of_nat (length (TradingEngine.order_books self)) in
  Forall (fun c => 1 - n <= TradingEngine.c_ticker_index c <= n) calls ->
  let r := TradingEngine.run self calls in
  TradingEngine.out r = Returned PyNone
  /\ TradingEngine.order_id_counter (TradingEngine.engine r)
     = TradingEngine.order_id_counter self + Z.of_nat (length calls)
  /\ length (TradingEngine.order_books (TradingEngine.engine r))
     = length (TradingEngine.order_books self).
Proof. exact (run_valid_indices self calls). Qed.

Lemma X10_ids_consumed_witness :
  let calls := [TradingEngine.mkCall "Buy" 1 5 100; TradingEngine.mkCall "Sell" 0 7 100] in
  Forall (fun c => 1 - 1024 <= TradingEngine.c_ticker_index c <= 1024) calls
  /\ TradingEngine.order_id_counter
       (TradingEngine.engine (TradingEngine.run TradingEngine.init calls)) = 2.
Proof.
  cbv zeta.
  assert (H : Forall (fun c => 1 - Z.of_nat (length (TradingEngine.order_books
                                                       TradingEngine.init))
                               <= TradingEngine.c_ticker_index c
                               <= Z.of_nat (length (TradingEngine.order_books
                                                      TradingEngine.init)))
                [TradingEngine.mkCall "Buy" 1 5 100;
                 TradingEngine.mkCall "Sell" 0 7 100]).
  { repeat constructor; vm_compute; discriminate. }
  split; [exact H|].
  exact (proj1 (proj2 (X10_ids_consumed TradingEngine.init _ H))).
Defined.

(** X11. An index that Python's indexing rejects aborts the run: the
    calls before it have taken effect, the failing call has consumed an
    id and changed no book, and the calls after it are never made. *)
Theorem X11_raise_aborts_run pre c post : forall self,
  let n := Z.of_nat (length (TradingEngine.order_books self)) in
  Forall (fun c => 1 - n <= TradingEngine.c_ticker_index c <= n) pre ->
  TradingEngine.c_ticker_index c < 1 - n \/ n < TradingEngine.c_ticker_index c ->
  let r := TradingEngine.run self (pre ++ c :: post) in
  TradingEngine.out r = Raised IndexError
  /\ TradingEngine.order_books (TradingEngine.engine r)
     = TradingEngine.order_books (TradingEngine.engine (TradingEngine.run self pre))
  /\ TradingEngine.stdout r = TradingEngine.stdout (TradingEngine.run self pre)
  /\ TradingEngine.order_id_counter (TradingEngine.engine r)
     = TradingEngine.order_id_counter self + Z.of_nat (length pre) + 1.
Proof.
  cbv zeta.
  induction pre as [|c0 pre IH]; intros self Hall Hbad; cbn [app TradingEngine.run].
  - destruct (add_order_cases self (TradingEngine.c_type c)
                (TradingEngine.c_ticker_index c) (TradingEngine.c_quantity c)
                (TradingEngine.c_price c))
      as [Hcnt [(Hout & _ & Hbooks & Hstd)|(k & book & _ & Hok & _)]]; [|lia].
    rewrite Hout. cbn. repeat split; try assumption. lia.
  - apply Forall_cons in Hall as [Hc Hall].
    destruct (add_order_cases self (TradingEngine.c_type c0)
                (TradingEngine.c_ticker_index c0) (TradingEngine.c_quantity c0)
                (TradingEngine.c_price c0))
      as [Hcnt [(_ & Hbad0 & _)|(k & book & Hout & _ & _ & _ & Hbooks & _)]];
      [lia|].
    rewrite Hout. cbn.
    assert (Hlen : length (TradingEngine.order_books
                             (TradingEngine.engine
                                (TradingEngine.add_order self (TradingEngine.c_type c0)
                                   (TradingEngine.c_ticker_index c0)
                                   (TradingEngine.c_quantity c0)
                                   (TradingEngine.c_price c0))))
                   = length (TradingEngine.order_books self))
      by (rewrite Hbooks; apply length_insert).
    rewrite <- Hlen in Hall, Hbad.
    destruct (IH _ Hall Hbad) as (Ho & Hb & Hs & Hc').
    rewrite Ho, Hb, Hs, Hc', Hcnt. repeat split. lia.
Qed.

Lemma X11_raise_aborts_run_witness :
  let pre := [TradingEngine.mkCall "Buy" 1 5 100] in
  let c := TradingEngine.mkCall "Sell" 1025 5 100 in
  let post := [TradingEngine.mkCall "Sell" 1 5 100] in
  Forall (fun c => 1 - 1024 <= TradingEngine.c_ticker_index c <= 1024) pre
  /\ (TradingEngine.c_ticker_index c < 1 - 1024 \/ 1024 < TradingEngine.c_ticker_index c)
  /\ TradingEngine.out (TradingEngine.run TradingEngine.init (pre ++ c :: post))
     = Raised IndexError.
Proof.
  cbv zeta.
  assert (H : Forall (fun c => 1 - Z.of_nat (length (TradingEngine.order_books
                                                       TradingEngine.init))
                               <= TradingEngine.c_ticker_index c
                               <= Z.of_nat (length (TradingEngine.order_books
                                                      TradingEngine.init)))
                [TradingEngine.mkCall "Buy" 1 5 100]).
  { repeat constructor; vm_compute; discriminate. }
  assert (Hbad : TradingEngine.c_ticker_index (TradingEngine.mkCall "Sell" 1025 5 100)
                 < 1 - Z.of_nat (length (TradingEngine.order_books TradingEngine.init))
                 \/ Z.of_nat (length (TradingEngine.order_books TradingEngine.init))
                    < TradingEngine.c_ticker_index (TradingEngine.mkCall "Sell" 1025 5 100)).
  { right. vm_compute. reflexivity. }
  split; [exact H|]. split; [exact Hbad|].
  exact (proj1 (X11_raise_aborts_run _ _ [TradingEngine.mkCall "Sell" 1 5 100]
                  TradingEngine.init H Hbad)).
Defined.

(** A property of books kept by [OrderBook.add_order] is kept, for all
    books of the engine, by [TradingEngine.add_order]. *)
Lemma engine_add_order_Forall (P : OrderBook.t -> Prop) self ot idx q p :
  (forall book, P book ->
     P (snd (OrderBook.add_order book (TradingEngine.new_order self ot idx q p)))) ->
  Forall P (TradingEngine.order_books self) ->
  Forall P (TradingEngine.order_books
              (TradingEngine.engine (TradingEngine.add_order self ot idx q p))).
Proof.
  intros Hstep Hall.
  destruct (add_order_cases self ot idx q p)
    as [_ [(_ & _ & -> & _)|(k & book & _ & _ & _ & Hbook & -> & _)]].
  - exact Hall.
  - apply Forall_insert; [exact Hall|]. apply Hstep.
    rewrite Forall_forall in Hall. apply Hall.
    apply list_elem_of_lookup. exists k. exact Hbook.
Qed.

(** X12. Every book of the engine stays sorted on both sides and not
    crossed, for every run of calls whose order type is ['Buy'] or
    ['Sell'], whatever the indices, quantities and prices, and also when
    the run is aborted by an exception. *)
Theorem X12_engine_books_sorted_uncrossed self calls :
  engine_ok self ->
  Forall (fun c => TradingEngine.c_type c = "Buy"%string
                   \/ TradingEngine.c_type c = "Sell"%string) calls ->
  engine_ok (TradingEngine.engine (TradingEngine.run self calls)).
Proof.
  intros Hok Hcalls. revert calls self Hcalls Hok.
  apply (run_invariant engine_ok).
  intros e c Hc He. apply engine_add_order_Forall; [|exact He].
  intros book Hbook.
  destruct Hc as [Hc|Hc].
  - apply (book_add_order_ok book _ Buy); [exact Hc|exact Hbook].
  - apply (book_add_order_ok book _ Sell); [exact Hc|exact Hbook].
Qed.

Lemma init_engine_ok : engine_ok TradingEngine.init.
Proof.
  apply Forall_replicate. repeat split; try constructor.
  intros (b & buys & s & sells & Hb & _); discriminate.
Qed.

Lemma init_engine_positive : engine_positive TradingEngine.init.
Proof. apply Forall_replicate. split; constructor. Qed.

Lemma X12_engine_books_sorted_uncrossed_witness :
  let calls := [TradingEngine.mkCall "Buy" 1 5 100; TradingEngine.mkCall "Sell" 1 7 90] in
  engine_ok TradingEngine.init
  /\ Forall (fun c => TradingEngine.c_type c = "Buy"%string
                      \/ TradingEngine.c_type c = "Sell"%string) calls
  /\ engine_ok (TradingEngine.engine (TradingEngine.run TradingEngine.init calls)).
Proof.
  cbv zeta.
  assert (H : Forall (fun c => TradingEngine.c_type c = "Buy"%string
                               \/ TradingEngine.c_type c = "Sell"%string)
                [TradingEngine.mkCall "Buy" 1 5 100;
                 TradingEngine.mkCall "Sell" 1 7 90]).
  { constructor; [left; reflexivity|].
    constructor; [right; reflexivity|constructor]. }
  split; [exact init_engine_ok|]. split; [exact H|].
  exact (X12_engine_books_sorted_uncrossed _ _ init_engine_ok H).
Defined.

(** X13. When every resting order has a positive quantity and every call
    submits a positive quantity, every resting order of every book has a
    positive quantity after the run: no filled order is left in a queue. *)
Theorem X13_engine_quantities_positive self calls :
  engine_positive self ->
  Forall (fun c => 0 < TradingEngine.c_quantity c) calls ->
  engine_positive (TradingEngine.engine (TradingEngine.run self calls)).
Proof.
  intros Hpos Hcalls. revert calls self Hcalls Hpos.
  apply (run_invariant engine_positive).
  intros e c Hc He. apply engine_add_order_Forall; [|exact He].
  intros book Hbook.
  apply (match_orders_positive _).
  destruct Hbook as [Hb Hs].
  destruct (String.eqb _ "Buy"); split; cbn;
    try assumption; apply add_order_Forall; assumption.
Qed.

Lemma X13_engine_quantities_positive_witness :
  let calls := [TradingEngine.mkCall "Buy" 1 5 100; TradingEngine.mkCall "Sell" 1 7 90] in
  engine_positive TradingEngine.init
  /\ Forall (fun c => 0 < TradingEngine.c_quantity c) calls
  /\ engine_positive (TradingEngine.engine (TradingEngine.run TradingEngine.init calls)).
Proof.
  cbv zeta.
  assert (H : Forall (fun c => 0 < TradingEngine.c_quantity c)
                [TradingEngine.mkCall "Buy" 1 5 100;
                 TradingEngine.mkCall "Sell" 1 7 90])
    by (repeat constructor).
  split; [exact init_engine_positive|]. split; [exact H|].
  exact (X13_engine_quantities_positive _ _ init_engine_positive H).
Defined.

(** ** Order ids *)

Lemma consumed_from_head_ids (l' l : OrderList.t) :
  consumed_from_head l' l -> map order_id l' `sublist_of` map order_id l.
Proof.
  intros [n H].
  assert (E : map order_id l' = map order_id (drop n l)).
  { destruct H as [->|(h & q & rest & Hd & ->)]; [reflexivity|].
    rewrite Hd. reflexivity. }
  rewrite E. change (map order_id (drop n l)) with (order_id <$> drop n l).
  rewrite fmap_drop. apply sublist_drop.
Qed.

Lemma book_add_order_ids self o :
  map order_id (book_orders (snd (OrderBook.add_order self o)))
  ⊆+ order_id o :: map order_id (book_orders self).
Proof.
  unfold OrderBook.add_order, book_orders.
  match goal with |- context [OrderBook.match_orders ?b] =>
    destruct (match_orders_consumed b) as [Hb Hs];
    transitivity (map order_id (OrderBook.buy_orders b ++ OrderBook.sell_orders b))
  end.
  - rewrite !map_app. apply sublist_submseteq, sublist_app;
      apply consumed_from_head_ids; assumption.
  - apply Permutation_submseteq.
    change (order_id o :: map order_id (OrderBook.buy_orders self
                                         ++ OrderBook.sell_orders self))
      with (map order_id (o :: OrderBook.buy_orders self ++ OrderBook.sell_orders self)).
    apply Permutation_map.
    destruct (String.eqb (order_type o) "Buy"); cbn.
    + destruct (add_order_split (OrderBook.buy_orders self) o)
        as (l1 & l2 & -> & -> & _).
      rewrite <- !app_assoc. cbn. symmetry. apply Permutation_middle.
    + destruct (add_order_split (OrderBook.sell_orders self) o)
        as (l1 & l2 & -> & -> & _).
      rewrite !app_assoc. symmetry. apply Permutation_middle.
Qed.

Lemma engine_add_order_ids self ot idx q p :
  resting_ids (TradingEngine.engine (TradingEngine.add_order self ot idx q p))
  ⊆+ (TradingEngine.order_id_counter self + 1) :: resting_ids self.
Proof.
  destruct (add_order_cases self ot idx q p)
    as [_ [(_ & _ & Hbooks & _)|(k & book & _ & _ & _ & Hbook & Hbooks & _)]];
    unfold resting_ids; rewrite Hbooks.
  - apply submseteq_cons. reflexivity.
  - rewrite insert_take_drop by (eapply lookup_lt_Some; exact Hbook).
    rewrite <- (take_drop_middle _ _ _ Hbook) at 3.
    rewrite !flat_map_app. cbn [flat_map].
    rewrite Permutation_middle.
    apply submseteq_skips_l.
    rewrite app_comm_cons. apply submseteq_skips_r.
    apply (book_add_order_ids book (TradingEngine.new_order self ot idx q p)).
Qed.

Lemma add_order_ids_fresh self ot idx q p :
  ids_fresh self ->
  ids_fresh (TradingEngine.engine (TradingEngine.add_order self ot idx q p)).
Proof.
  intros (Hc0 & Hbound & Hnd).
  pose proof (engine_add_order_ids self ot idx q p) as Hsub.
  destruct (add_order_cases self ot idx q p) as [Hcnt _].
  rewrite Forall_forall in Hbound.
  assert (Hnd' : NoDup ((TradingEngine.order_id_counter self + 1) :: resting_ids self)).
  { apply NoDup_cons. split; [|exact Hnd].
    intros Hin. apply Hbound in Hin. lia. }
  split; [lia|]. split.
  - apply Forall_forall. intros i Hi. rewrite Hcnt.
    apply (elem_of_submseteq _ _ _ Hi) in Hsub.
    apply elem_of_cons in Hsub as [->|Hin]; [lia|].
    apply Hbound in Hin. lia.
  - apply submseteq_Permutation in Hsub as [k Hk].
    rewrite Hk in Hnd'. apply NoDup_app in Hnd' as [H _]. exact H.
Qed.

(** X14. Order ids stay unique: in every engine state reached by a run,
    no two resting orders, of any books, have the same id, and every id
    lies between 1 and the counter. *)
Theorem X14_resting_ids_unique self calls :
  ids_fresh self ->
  ids_fresh (TradingEngine.engine (TradingEngine.run self calls)).
Proof.
  intros Hids.
  apply (run_invariant ids_fresh (fun _ => True)); [|apply Forall_true; auto|exact Hids].
  intros e c _ He. apply add_order_ids_fresh. exact He.
Qed.

Lemma init_ids_fresh : ids_fresh TradingEngine.init.
Proof.
  assert (E : resting_ids TradingEngine.init = []) by (vm_compute; reflexivity).
  unfold ids_fresh. rewrite E. split; [vm_compute; discriminate|]. split; constructor.
Qed.

Lemma X14_resting_ids_unique_witness :
  let calls := [TradingEngine.mkCall "Buy" 1 5 100; TradingEngine.mkCall "Buy" 2 7 90] in
  ids_fresh TradingEngine.init
  /\ NoDup (resting_ids (TradingEngine.engine (TradingEngine.run TradingEngine.init calls))).
Proof.
  cbv zeta. split; [exact init_ids_fresh|].
  exact (proj2 (proj2 (X14_resting_ids_unique TradingEngine.init
                  [TradingEngine.mkCall "Buy" 1 5 100;
                   TradingEngine.mkCall "Buy" 2 7 90] init_ids_fresh))).
Defined.

(** ** simulate_trading *)

(** X15. [simulate_trading] on a fresh engine never raises, whatever the
    random draws: every drawn index selects a book.  It hands out the ids
    1 to [num_orders], and leaves every book sorted on both sides, not
    crossed, and holding only orders with a positive quantity. *)
Theorem X15_simulate_trading_never_raises draws :
  Forall random_draw draws ->
  let r := TradingEngine.simulate_trading TradingEngine.init draws in
  TradingEngine.out r = Returned PyNone
  /\ TradingEngine.order_id_counter (TradingEngine.engine r)
     = Z.of_nat (length draws)
  /\ length (TradingEngine.order_books (TradingEngine.engine r)) = 1024%nat
  /\ engine_ok (TradingEngine.engine r)
  /\ engine_positive (TradingEngine.engine r).
Proof.
  intros Hd. cbv zeta. unfold TradingEngine.simulate_trading.
  destruct (run_valid_indices TradingEngine.init draws) as (Hout & Hcnt & Hlen).
  { eapply Forall_impl; [exact Hd|].
    intros c (_ & Hidx & _).
    change (Z.of_nat (length (TradingEngine.order_books TradingEngine.init)))
      with 1024. lia. }
  split; [exact Hout|]. split.
  { rewrite Hcnt.
    change (TradingEngine.order_id_counter TradingEngine.init) with 0. lia. }
  split; [rewrite Hlen; apply length_replicate|]. split.
  - apply (run_invariant engine_ok
             (fun c => TradingEngine.c_type c = "Buy"%string
                       \/ TradingEngine.c_type c = "Sell"%string)).
    + intros e c Hc He. apply engine_add_order_Forall; [|exact He].
      intros book Hbook. destruct Hc as [Hc|Hc].
      * apply (book_add_order_ok book _ Buy); [exact Hc|exact Hbook].
      * apply (book_add_order_ok book _ Sell); [exact Hc|exact Hbook].
    + eapply Forall_impl; [exact Hd|]. intros c (Ht & _). exact Ht.
    + exact init_engine_ok.
  - apply (run_invariant engine_positive (fun c => 0 < TradingEngine.c_quantity c)).
    + intros e c Hc He. apply engine_add_order_Forall; [|exact He].
      intros book [Hb Hs]. apply (match_orders_positive _).
      destruct (String.eqb _ "Buy"); split; cbn;
        try assumption; apply add_order_Forall; assumption.
    + eapply Forall_impl; [exact Hd|]. intros c (_ & _ & Hq & _). lia.
    + exact init_engine_positive.
Qed.

Lemma X15_simulate_trading_never_raises_witness :
  let draws := [TradingEngine.mkCall "Buy" 1024 100 500;
                TradingEngine.mkCall "Sell" 1 1 10] in
  Forall random_draw draws
  /\ TradingEngine.out (TradingEngine.simulate_trading TradingEngine.init draws)
     = Returned PyNone.
Proof.
  cbv zeta.
  assert (H : Forall random_draw [TradingEngine.mkCall "Buy" 1024 100 500;
                                  TradingEngine.mkCall "Sell" 1 1 10]).
  { constructor; [|constructor; [|constructor]]; unfold random_draw; cbn.
    - split; [left; reflexivity|lia].
    - split; [right; reflexivity|lia]. }
  split; [exact H|].
  exact (proj1 (X15_simulate_trading_never_raises _ H)).
Defined.

(** ** Tickers *)

Lemma consumed_from_head_Forall (P : Order -> Prop) (l' l : OrderList.t) :
  (forall o q, P o -> P (set_quantity o q)) ->
  consumed_from_head l' l -> Forall P l -> Forall P l'.
Proof.
  intros Hst [n H] Hl.
  pose proof (Forall_drop _ n _ Hl) as Hd.
  destruct H as [->|(h & q & rest & E & ->)]; [exact Hd|].
  rewrite E in Hd. apply Forall_cons in Hd as [Hh Hrest].
  constructor; [apply Hst; exact Hh|exact Hrest].
Qed.

(** A property of orders that does not depend on the quantity holds of
    the orders resting after [OrderBook.add_order] and of the orders of
    every trade it prints, when it holds of the resting orders before and
    of the new order. *)
Lemma book_add_order_Forall (P : Order -> Prop) self o :
  (forall o q, P o -> P (set_quantity o q)) ->
  Forall P (book_orders self) -> P o ->
  Forall P (book_orders (snd (OrderBook.add_order self o)))
  /\ Forall (fun m => P (OrderBook.buy_order m) /\ P (OrderBook.sell_order m))
            (fst (OrderBook.add_order self o)).
Proof.
  intros Hst Hall Ho. unfold book_orders in Hall.
  apply Forall_app in Hall as [Hb Hs].
  unfold OrderBook.add_order.
  match goal with |- context [OrderBook.match_orders ?b] =>
    assert (Hb1 : Forall P (OrderBook.buy_orders b));
    [|assert (Hs1 : Forall P (OrderBook.sell_orders b));
      [|destruct (match_orders_consumed b) as [Cb Cs];
        pose proof (match_orders_trades b) as Htr]]
  end.
  - destruct (String.eqb _ "Buy"); cbn;
      [apply add_order_Forall|]; assumption.
  - destruct (String.eqb _ "Buy"); cbn;
      [|apply add_order_Forall]; assumption.
  - split.
    + unfold book_orders. apply Forall_app. split.
      * eapply consumed_from_head_Forall; eassumption.
      * eapply consumed_from_head_Forall; eassumption.
    + apply Forall_forall. intros m Hm. apply list_elem_of_In in Hm.
      destruct (Htr m Hm) as (_ & _ & (b & Hbin & [qb ->]) & (s & Hsin & [qs ->])).
      rewrite Forall_forall in Hb1, Hs1.
      split; apply Hst; [apply Hb1|apply Hs1]; apply list_elem_of_In; assumption.
Qed.

(** X16. With indices from 1 to N the books hold orders of their own
    instrument: if every order resting in the book at position [k] has
    ticker [STOCK(k+1)], a call with [1 <= ticker_index <= N] keeps it so,
    and both orders of every trade it prints carry [STOCK] followed by
    [ticker_index], the name written in the printed line. *)
Theorem X16_tickers_name_the_book self ot idx q p :
  tickers_match self ->
  1 <= idx <= Z.of_nat (length (TradingEngine.order_books self)) ->
  let r := TradingEngine.add_order self ot idx q p in
  tickers_match (TradingEngine.engine r)
  /\ Forall (fun m =>
               ticker (OrderBook.buy_order m) = ("STOCK" ++ str idx)%string
               /\ ticker (OrderBook.sell_order m) = ("STOCK" ++ str idx)%string
               /\ OrderBook.printed m
                  = ("Matched Order: STOCK" ++ str idx
                       ++ " | Price: " ++ str (OrderBook.trade_price m)
                       ++ " | Quantity: " ++ str (OrderBook.traded_quantity m))%string)
            (TradingEngine.stdout r).
Proof.
  intros Hm Hidx. cbv zeta.
  destruct (add_order_cases self ot idx q p)
    as [_ [(_ & Hbad & _)|(k & book & _ & _ & Hk & Hbook & Hbooks & Hstd)]];
    [lia|].
  assert (Hlt : (k < length (TradingEngine.order_books self))%nat)
    by (eapply lookup_lt_Some; exact Hbook).
  assert (Hk' : Z.of_nat k + 1 = idx) by lia.
  destruct (book_add_order_Forall
              (fun o => ticker o = ("STOCK" ++ str idx)%string)
              book (TradingEngine.new_order self ot idx q p))
    as [Hrest Htrades].
  { intros o0 q0 H. exact H. }
  { rewrite <- Hk'. apply (Hm k book Hbook). }
  { reflexivity. }
  split.
  - intros j bookj Hj. rewrite Hbooks in Hj.
    destruct (decide (j = k)) as [->|Hne].
    + rewrite list_lookup_insert_eq in Hj by exact Hlt.
      inversion Hj; subst bookj. rewrite Hk'. exact Hrest.
    + rewrite list_lookup_insert_ne in Hj by congruence.
      apply (Hm j bookj Hj).
  - rewrite Hstd. eapply Forall_impl; [exact Htrades|].
    intros m [Hb Hs]. split; [exact Hb|]. split; [exact Hs|].
    unfold OrderBook.printed. rewrite Hb. reflexivity.
Qed.

Lemma init_tickers_match : tickers_match TradingEngine.init.
Proof.
  intros k book Hk. apply lookup_replicate in Hk as [-> _]. constructor.
Qed.

Lemma X16_tickers_name_the_book_witness :
  tickers_match TradingEngine.init
  /\ 1 <= 7 <= Z.of_nat (length (TradingEngine.order_books TradingEngine.init))
  /\ tickers_match
       (TradingEngine.engine (TradingEngine.add_order TradingEngine.init "Buy" 7 5 100)).
Proof.
  assert (H : 1 <= 7 <= Z.of_nat (length (TradingEngine.order_books TradingEngine.init)))
    by (vm_compute; split; discriminate).
  split; [exact init_tickers_match|]. split; [exact H|].
  exact (proj1 (X16_tickers_name_the_book TradingEngine.init "Buy" 7 5 100
                  init_tickers_match H)).
Defined.

(** ** An arriving order and the book *)

Lemma self_crossed_cons b bs s ss :
  self_crossed (OrderBook.mk (b :: bs) (s :: ss)) <-> price s <= price b.
Proof.
  unfold self_crossed; cbn. split.
  - intros (b0 & bs0 & s0 & ss0 & Hb & Hs & Hp). inversion Hb; inversion Hs; subst. lia.
  - intros Hp. exists b, bs, s, ss. repeat split. lia.
Qed.

Lemma match_orders_nil_iff self :
  fst (OrderBook.match_orders self) = [] <-> ~ self_crossed self.
Proof.
  split.
  - intros Hts. apply crosses_self_crossed, match_iter_None.
    rewrite match_orders_unfold in Hts.
    destruct (OrderBook.match_iter self) as [[m self']|]; [discriminate|reflexivity].
  - intros Hn. rewrite not_crossed_no_trades by exact Hn. reflexivity.
Qed.

(** Whether an arriving order trades, read on the head of the opposite
    queue. *)
Lemma order_trades_iff_head self o :
  ~ self_crossed self ->
  (order_type o = "Buy"%string ->
     (fst (OrderBook.add_order self o) = []
      <-> match OrderBook.sell_orders self with
          | [] => True
          | s :: _ => price o < price s
          end)
     /\ (fst (OrderBook.add_order self o) = [] ->
         snd (OrderBook.add_order self o)
         = OrderBook.mk (OrderList.add_order (OrderBook.buy_orders self) o)
                        (OrderBook.sell_orders self)))
  /\ (order_type o = "Sell"%string ->
     (fst (OrderBook.add_order self o) = []
      <-> match OrderBook.buy_orders self with
          | [] => True
          | b :: _ => price b < price o
          end)
     /\ (fst (OrderBook.add_order self o) = [] ->
         snd (OrderBook.add_order self o)
         = OrderBook.mk (OrderBook.buy_orders self)
                        (OrderList.add_order (OrderBook.sell_orders self) o))).
Proof.
  intros Hn. destruct self as [buys sells]. unfold OrderBook.add_order.
  cbn [OrderBook.buy_orders OrderBook.sell_orders].
  split; intros Ht; rewrite Ht; cbn [String.eqb Ascii.eqb Bool.eqb andb];
    (split; [rewrite match_orders_nil_iff
            |intros Hts; apply match_orders_nil_iff in Hts;
             rewrite not_crossed_no_trades by exact Hts; reflexivity]).
  - destruct (add_order_split buys o) as (l1 & l2 & -> & -> & Hpos).
    destruct sells as [|s ss].
    { split; [intros _; exact I|].
      intros _ (? & ? & ? & ? & _ & Hs & _); discriminate. }
    destruct l1 as [|h l1']; cbn [app] in *.
    + rewrite self_crossed_cons. lia.
    + rewrite self_crossed_cons in Hn |- *.
      destruct Hpos as (Hg & _).
      assert (Hle : price o <= price h).
      { destruct (Z.le_gt_cases (price o) (price h)) as [H|H]; [exact H|].
        exfalso.
        assert (Hg' : OrderList.goes_first o h = true).
        { apply (goes_first_side Buy o h Ht). unfold no_worse. lia. }
        congruence. }
      lia.
  - destruct (add_order_split sells o) as (l1 & l2 & -> & -> & Hpos).
    destruct buys as [|b bs].
    { split; [intros _; exact I|].
      intros _ (? & ? & ? & ? & Hb & _ & _); discriminate. }
    destruct l1 as [|h l1']; cbn [app] in *.
    + rewrite self_crossed_cons. lia.
    + rewrite self_crossed_cons in Hn |- *.
      destruct Hpos as (Hg & _).
      assert (Hle : price h <= price o).
      { destruct (Z.le_gt_cases (price h) (price o)) as [H|H]; [exact H|].
        exfalso.
        assert (Hg' : OrderList.goes_first o h = true).
        { apply (goes_first_side Sell o h Ht). unfold no_worse. lia. }
        congruence. }
      lia.
Qed.

Lemma below_head_iff_below_all s (o : Order) (l : OrderList.t) :
  sorted s l ->
  match l with
  | [] => True
  | h :: _ => ~ no_worse s h o
  end
  <-> Forall (fun x => ~ no_worse s x o) l.
Proof.
  intros Hs. destruct l as [|h tl]; [split; [constructor|exact (fun _ => I)]|].
  split.
  - intros Hh. constructor; [exact Hh|].
    pose proof (sorted_head_is_best s _ Hs h tl eq_refl) as Hbest.
    eapply Forall_impl; [exact Hbest|].
    intros x Hx Hxo. apply Hh. etransitivity; eassumption.
  - intros Hall. apply Forall_cons in Hall as [Hh _]. exact Hh.
Qed.

(** X17. In a book that is not crossed, an arriving Buy prints no trade
    exactly when the Sell queue is empty or the Buy's price is below the
    price of the order at the head of the Sell queue; when the Sell queue
    is sorted, that is exactly when its price is below the price of every
    resting Sell, so it trades exactly when it reaches the best Sell
    price.  Symmetrically, an arriving Sell prints no trade exactly when
    the Buy queue is empty or the price of the order at the head of the
    Buy queue is below the Sell's price, which for a sorted Buy queue
    means that every resting Buy's price is below it.  An order that does
    not trade is left resting in its queue and nothing else changes. *)
Theorem X17_order_trades_iff_it_crosses self o :
  ~ self_crossed self ->
  (order_type o = "Buy"%string ->
     (fst (OrderBook.add_order self o) = []
      <-> match OrderBook.sell_orders self with
          | [] => True
          | s :: _ => price o < price s
          end)
     /\ (sorted Sell (OrderBook.sell_orders self) ->
         (fst (OrderBook.add_order self o) = []
          <-> Forall (fun s => price o < price s) (OrderBook.sell_orders self)))
     /\ (fst (OrderBook.add_order self o) = [] ->
         snd (OrderBook.add_order self o)
         = OrderBook.mk (OrderList.add_order (OrderBook.buy_orders self) o)
                        (OrderBook.sell_orders self)))
  /\ (order_type o = "Sell"%string ->
     (fst (OrderBook.add_order self o) = []
      <-> match OrderBook.buy_orders self with
          | [] => True
          | b :: _ => price b < price o
          end)
     /\ (sorted Buy (OrderBook.buy_orders self) ->
         (fst (OrderBook.add_order self o) = []
          <-> Forall (fun b => price b < price o) (OrderBook.buy_orders self)))
     /\ (fst (OrderBook.add_order self o) = [] ->
         snd (OrderBook.add_order self o)
         = OrderBook.mk (OrderBook.buy_orders self)
                        (OrderList.add_order (OrderBook.sell_orders self) o))).
Proof.
  intros Hn. destruct (order_trades_iff_head self o Hn) as [HB HS].
  split; intros Ht.
  - destruct (HB Ht) as [Hhead Hrest]. split; [exact Hhead|]. split; [|exact Hrest].
    intros Hs. rewrite Hhead.
    pose proof (below_head_iff_below_all Sell o _ Hs) as Hiff.
    destruct (OrderBook.sell_orders self) as [|s ss].
    + split; [constructor|exact (fun _ => I)].
    + split.
      * intros Hp. apply proj1 in Hiff.
        eapply Forall_impl; [apply Hiff; unfold no_worse; lia|].
        intros x Hx. unfold no_worse in Hx. lia.
      * intros Hall. apply Forall_cons in Hall as [Hp _]. exact Hp.
  - destruct (HS Ht) as [Hhead Hrest]. split; [exact Hhead|]. split; [|exact Hrest].
    intros Hs. rewrite Hhead.
    pose proof (below_head_iff_below_all Buy o _ Hs) as Hiff.
    destruct (OrderBook.buy_orders self) as [|b bs].
    + split; [constructor|exact (fun _ => I)].
    + split.
      * intros Hp. apply proj1 in Hiff.
        eapply Forall_impl; [apply Hiff; unfold no_worse; lia|].
        intros x Hx. unfold no_worse in Hx. lia.
      * intros Hall. apply Forall_cons in Hall as [Hp _]. exact Hp.
Qed.

Lemma X17_order_trades_iff_it_crosses_witness :
  let self := OrderBook.mk [] [mkOrder "Sell" "STOCK1" 5 100 1] in
  let o := mkOrder "Buy" "STOCK1" 5 99 2 in
  ~ self_crossed self /\ order_type o = "Buy"%string
  /\ fst (OrderBook.add_order self o) = [].
Proof.
  cbv zeta.
  assert (Hn : ~ self_crossed (OrderBook.mk [] [mkOrder "Sell" "STOCK1" 5 100 1])).
  { apply crosses_self_crossed. reflexivity. }
  split; [exact Hn|]. split; [reflexivity|].
  apply (proj2 (proj1 (proj1 (X17_order_trades_iff_it_crosses _
                                (mkOrder "Buy" "STOCK1" 5 99 2) Hn) eq_refl))).
  cbn. lia.
Defined.

(** The Buy queue left by the loop after a Buy was linked at the head of
    the Buy queue [buys] of a book that was not crossed. *)
Lemma buy_aggressor_final buys o st :
  sorted Sell (OrderBook.sell_orders st) ->
  (exists o', same_order o' o /\ OrderBook.buy_orders st = o' :: buys
              /\ ~ self_crossed (OrderBook.mk buys (OrderBook.sell_orders st))) ->
  OrderBook.buy_orders (snd (OrderBook.match_orders st)) = buys
  \/ exists o'', same_order o'' o
                 /\ OrderBook.buy_orders (snd (OrderBook.match_orders st)) = o'' :: buys.
Proof.
  apply (match_orders_induction
           (fun st _ st'' =>
              sorted Sell (OrderBook.sell_orders st) ->
              (exists o', same_order o' o /\ OrderBook.buy_orders st = o' :: buys
                          /\ ~ self_crossed (OrderBook.mk buys (OrderBook.sell_orders st))) ->
              OrderBook.buy_orders st'' = buys
              \/ exists o'', same_order o'' o /\ OrderBook.buy_orders st'' = o'' :: buys)).
  - intros st0 _ _ (o' & Hso & Hb & _). right. exists o'. split; assumption.
  - intros st0 m0 st' ms st'' Hi Hmo IH Ss (o' & Hso & Hbo & Hn).
    destruct (match_iter_Some _ _ _ Hi)
      as (b & bs & s & ss & Hb & Hs & Hp & -> & Hb' & Hs').
    rewrite Hb in Hbo. inversion Hbo; subst b bs; clear Hbo.
    rewrite Hs in Ss, Hn.
    pose proof (step_keeps_uncrossed_sell buys s
                  (quantity s - Z.min (quantity o') (quantity s)) ss Ss Hn) as Hn'.
    rewrite <- Hs' in Hn'.
    destruct (quantity o' - Z.min (quantity o') (quantity s) =? 0).
    + left.
      assert (Hst' : ~ self_crossed st')
        by (destruct st' as [bl sl]; cbn in *; subst bl; exact Hn').
      rewrite (not_crossed_no_trades _ Hst') in Hmo.
      injection Hmo as _ <-. exact Hb'.
    + apply IH; [rewrite Hs'; apply step_sorted; exact Ss|].
      eexists. split; [|split; [exact Hb'|exact Hn']].
      eapply same_order_trans; [apply same_order_set_quantity|exact Hso].
Qed.

Lemma sell_aggressor_final sells o st :
  sorted Buy (OrderBook.buy_orders st) ->
  (exists o', same_order o' o /\ OrderBook.sell_orders st = o' :: sells
              /\ ~ self_crossed (OrderBook.mk (OrderBook.buy_orders st) sells)) ->
  OrderBook.sell_orders (snd (OrderBook.match_orders st)) = sells
  \/ exists o'', same_order o'' o
                 /\ OrderBook.sell_orders (snd (OrderBook.match_orders st)) = o'' :: sells.
Proof.
  apply (match_orders_induction
           (fun st _ st'' =>
              sorted Buy (OrderBook.buy_orders st) ->
              (exists o', same_order o' o /\ OrderBook.sell_orders st = o' :: sells
                          /\ ~ self_crossed (OrderBook.mk (OrderBook.buy_orders st) sells)) ->
              OrderBook.sell_orders st'' = sells
              \/ exists o'', same_order o'' o /\ OrderBook.sell_orders st'' = o'' :: sells)).
  - intros st0 _ _ (o' & Hso & Hs & _). right. exists o'. split; assumption.
  - intros st0 m0 st' ms st'' Hi Hmo IH Sb (o' & Hso & Hso' & Hn).
    destruct (match_iter_Some _ _ _ Hi)
      as (b & bs & s & ss & Hb & Hs & Hp & -> & Hb' & Hs').
    rewrite Hs in Hso'. inversion Hso'; subst s ss; clear Hso'.
    rewrite Hb in Sb, Hn.
    pose proof (step_keeps_uncrossed_buy sells b
                  (quantity b - Z.min (quantity b) (quantity o')) bs Sb Hn) as Hn'.
    rewrite <- Hb' in Hn'.
    destruct (quantity o' - Z.min (quantity b) (quantity o') =? 0).
    + left.
      assert (Hst' : ~ self_crossed st')
        by (destruct st' as [bl sl]; cbn in *; subst sl; exact Hn').
      rewrite (not_crossed_no_trades _ Hst') in Hmo.
      injection Hmo as _ <-. exact Hs'.
    + apply IH; [rewrite Hb'; apply step_sorted; exact Sb|].
      eexists. split; [|split; [exact Hs'|exact Hn']].
      eapply same_order_trans; [apply same_order_set_quantity|exact Hso].
Qed.

(** The queue of the arriving order's own side after the call. *)
Lemma own_side_after_add_order self o :
  book_ok self ->
  (order_type o = "Buy"%string ->
     exists l1 l2,
       OrderBook.buy_orders self = l1 ++ l2
       /\ (OrderBook.buy_orders (snd (OrderBook.add_order self o)) = l1 ++ l2
           \/ exists o', same_order o' o
                /\ OrderBook.buy_orders (snd (OrderBook.add_order self o))
                   = l1 ++ o' :: l2))
  /\ (order_type o = "Sell"%string ->
     exists l1 l2,
       OrderBook.sell_orders self = l1 ++ l2
       /\ (OrderBook.sell_orders (snd (OrderBook.add_order self o)) = l1 ++ l2
           \/ exists o', same_order o' o
                /\ OrderBook.sell_orders (snd (OrderBook.add_order self o))
                   = l1 ++ o' :: l2)).
Proof.
  intros (Sb & Ss & Hn). destruct self as [buys sells]. unfold OrderBook.add_order.
  cbn [OrderBook.buy_orders OrderBook.sell_orders] in *.
  split; intros Ht; rewrite Ht; cbn [String.eqb Ascii.eqb Bool.eqb andb].
  - destruct (add_order_split buys o) as (l1 & l2 & -> & -> & _).
    exists l1, l2. split; [reflexivity|].
    destruct l1 as [|h l1']; cbn [app] in *.
    + destruct (buy_aggressor_final l2 o (OrderBook.mk (o :: l2) sells) Ss)
        as [H|(o'' & Hso & H)].
      * exists o. split; [apply same_order_refl|]. split; [reflexivity|exact Hn].
      * left. exact H.
      * right. exists o''. split; assumption.
    + right. exists o. split; [apply same_order_refl|].
      rewrite not_crossed_no_trades; [reflexivity|].
      destruct sells as [|s ss].
      * intros (? & ? & ? & ? & _ & Hs0 & _); discriminate.
      * rewrite (self_crossed_heads h _ (l1' ++ l2) s ss ss). exact Hn.
  - destruct (add_order_split sells o) as (l1 & l2 & -> & -> & _).
    exists l1, l2. split; [reflexivity|].
    destruct l1 as [|h l1']; cbn [app] in *.
    + destruct (sell_aggressor_final l2 o (OrderBook.mk buys (o :: l2)) Sb)
        as [H|(o'' & Hso & H)].
      * exists o. split; [apply same_order_refl|]. split; [reflexivity|exact Hn].
      * left. exact H.
      * right. exists o''. split; assumption.
    + right. exists o. split; [apply same_order_refl|].
      rewrite not_crossed_no_trades; [reflexivity|].
      destruct buys as [|b bs].
      * intros (? & ? & ? & ? & Hb0 & _ & _); discriminate.
      * rewrite (self_crossed_heads b bs bs h _ (l1' ++ l2)). exact Hn.
Qed.

(** X18. In a sorted book that is not crossed, the orders resting on the
    arriving order's own side are left exactly as they were: after the
    call that queue is the old queue, with the new order, or what remains
    of it, linked in once, or not at all when it was filled. *)
Theorem X18_own_side_untouched self o :
  book_ok self ->
  (order_type o = "Buy"%string ->
     exists l1 l2,
       OrderBook.buy_orders self = l1 ++ l2
       /\ (OrderBook.buy_orders (snd (OrderBook.add_order self o)) = l1 ++ l2
           \/ exists o', same_order o' o
                /\ OrderBook.buy_orders (snd (OrderBook.add_order self o))
                   = l1 ++ o' :: l2))
  /\ (order_type o = "Sell"%string ->
     exists l1 l2,
       OrderBook.sell_orders self = l1 ++ l2
       /\ (OrderBook.sell_orders (snd (OrderBook.add_order self o)) = l1 ++ l2
           \/ exists o', same_order o' o
                /\ OrderBook.sell_orders (snd (OrderBook.add_order self o))
                   = l1 ++ o' :: l2)).
Proof. exact (own_side_after_add_order self o). Qed.

Lemma book_ok_empty_buys s : book_ok (OrderBook.mk [] [s]).
Proof.
  repeat split; try (repeat constructor).
  intros (? & ? & ? & ? & Hb & _); discriminate.
Qed.

Lemma X18_own_side_untouched_witness :
  let self := OrderBook.mk [] [mkOrder "Sell" "STOCK1" 5 100 1] in
  let o := mkOrder "Sell" "STOCK1" 5 100 2 in
  book_ok self /\ order_type o = "Sell"%string
  /\ exists l1 l2,
       OrderBook.sell_orders self = l1 ++ l2
       /\ (OrderBook.sell_orders (snd (OrderBook.add_order self o)) = l1 ++ l2
           \/ exists o', same_order o' o
                /\ OrderBook.sell_orders (snd (OrderBook.add_order self o))
                   = l1 ++ o' :: l2).
Proof.
  cbv zeta. split; [apply book_ok_empty_buys|]. split; [reflexivity|].
  exact (proj2 (X18_own_side_untouched _ (mkOrder "Sell" "STOCK1" 5 100 2)
                  (book_ok_empty_buys _)) eq_refl).
Defined.

(** X19. In a sorted book that is not crossed and holds positive
    quantities, an arriving order with a positive quantity trades in
    total at most its own quantity. *)
Theorem X19_fill_at_most_quantity self o s :
  book_ok self -> positive_quantities self -> 0 < quantity o ->
  order_type o = side_name s ->
  0 <= total_traded (fst (OrderBook.add_order self o)) <= quantity o.
Proof.
  intros Hok Hpos Hq Ht.
  assert (Hfin : positive_quantities (snd (OrderBook.add_order self o))
                 /\ 0 <= total_traded (fst (OrderBook.add_order self o))).
  { unfold OrderBook.add_order.
    match goal with |- context [OrderBook.match_orders ?b] =>
      destruct (match_orders_positive b) as [Hfin Htr] end.
    - destruct Hpos as [Hb Hs].
      destruct (String.eqb _ "Buy"); split; cbn;
        try assumption; apply add_order_Forall; assumption.
    - split; [exact Hfin|].
      induction Htr as [|m ms (Hm & _) _ IH]; unfold total_traded in *; cbn; lia. }
  destruct Hfin as [Hfin Hnonneg].
  destruct (book_add_order_conserves self o) as [Cb Cs].
  destruct (own_side_after_add_order self o Hok) as [HB HS].
  destruct Hfin as [Fb Fs].
  unfold routed_buy, routed_sell in Cb, Cs. cbn [List.filter] in Cb, Cs.
  destruct s; cbn in Ht; rewrite Ht in Cb, Cs; cbn in Cb, Cs.
  - destruct (HB Ht) as (l1 & l2 & E & [H|(o' & Hso & H)]);
      rewrite H in Cb, Fb; rewrite E in Cb.
    + unfold total_quantity in Cb; cbn in Cb. lia.
    + rewrite !total_quantity_app in Cb.
      apply Forall_app in Fb as [_ Fb]. apply Forall_cons in Fb as [Fo _].
      unfold total_quantity in Cb; cbn in Cb. lia.
  - destruct (HS Ht) as (l1 & l2 & E & [H|(o' & Hso & H)]);
      rewrite H in Cs, Fs; rewrite E in Cs.
    + unfold total_quantity in Cs; cbn in Cs. lia.
    + rewrite !total_quantity_app in Cs.
      apply Forall_app in Fs as [_ Fs]. apply Forall_cons in Fs as [Fo _].
      unfold total_quantity in Cs; cbn in Cs. lia.
Qed.

Lemma X19_fill_at_most_quantity_witness :
  let self := OrderBook.mk [] [mkOrder "Sell" "STOCK1" 7 100 1] in
  let o := mkOrder "Buy" "STOCK1" 5 100 2 in
  book_ok self /\ positive_quantities self /\ 0 < quantity o
  /\ order_type o = side_name Buy
  /\ 0 <= total_traded (fst (OrderBook.add_order self o)) <= quantity o.
Proof.
  cbv zeta.
  assert (Hpos : positive_quantities
                   (OrderBook.mk [] [mkOrder "Sell" "STOCK1" 7 100 1]))
    by (split; repeat constructor).
  assert (Hq : 0 < quantity (mkOrder "Buy" "STOCK1" 5 100 2)) by (cbn; lia).
  split; [apply book_ok_empty_buys|]. split; [exact Hpos|]. split; [exact Hq|].
  split; [reflexivity|].
  exact (X19_fill_at_most_quantity _ _ Buy (book_ok_empty_buys _) Hpos Hq eq_refl).
Defined.

(** ** Quantities that are not positive *)

(** X20. Nothing rejects a quantity that is zero or negative.  When a Buy
    with quantity [q <= 0] arrives in a book that is not crossed and its
    price is at least the price of the order at the head of the Sell
    queue, whose quantity is positive, one trade of quantity [q] is
    printed, the Buy is unlinked at once, and that Sell is left at the
    head with its quantity minus [q], so a negative [q] makes it grow.
    An arriving Sell with [q <= 0] whose price is at most the price of
    the order at the head of the Buy queue does the same to that Buy. *)
Theorem X20_non_positive_quantity self o :
  ~ self_crossed self -> quantity o <= 0 ->
  (forall s ss,
      order_type o = "Buy"%string ->
      OrderBook.sell_orders self = s :: ss ->
      price s <= price o -> 0 < quantity s ->
      OrderBook.add_order self o
      = ([OrderBook.mkTrade o s (quantity o) (price s)],
         OrderBook.mk (OrderBook.buy_orders self)
                      (set_quantity s (quantity s - quantity o) :: ss)))
  /\ (forall b bs,
        order_type o = "Sell"%string ->
        OrderBook.buy_orders self = b :: bs ->
        price o <= price b -> 0 < quantity b ->
        OrderBook.add_order self o
        = ([OrderBook.mkTrade b o (quantity o) (price o)],
           OrderBook.mk (set_quantity b (quantity b - quantity o) :: bs)
                        (OrderBook.sell_orders self))).
Proof.
  intros Hn Hq. destruct self as [buys sells].
  cbn [OrderBook.buy_orders OrderBook.sell_orders].
  split.
  - intros s ss Ht -> Hp Hs.
    assert (Hadd : OrderList.add_order buys o = o :: buys).
    { destruct buys as [|h tl].
      - unfold OrderList.add_order, OrderList.add_order_attempt.
        rewrite compare_and_swap_head_same. reflexivity.
      - rewrite self_crossed_cons in Hn.
        assert (Hg : OrderList.goes_first o h = true).
        { apply (goes_first_side Buy o h Ht). unfold no_worse. lia. }
        unfold OrderList.add_order, OrderList.add_order_attempt.
        rewrite Hg, compare_and_swap_head_same. reflexivity. }
    unfold OrderBook.add_order. rewrite Ht. cbn [String.eqb Ascii.eqb Bool.eqb andb].
    cbn [OrderBook.buy_orders OrderBook.sell_orders]. rewrite Hadd.
    rewrite match_orders_unfold. unfold OrderBook.match_iter.
    cbn [OrderBook.buy_orders OrderBook.sell_orders].
    rewrite Z.geb_leb. destruct (Z.leb_spec (price s) (price o)); [|lia].
    rewrite Z.min_l by lia. cbn [quantity set_quantity].
    rewrite Z.sub_diag. cbn [Z.eqb OrderList.pop_head snd].
    destruct (Z.eqb_spec (quantity s - quantity o) 0); [lia|].
    rewrite not_crossed_no_trades; [reflexivity|].
    destruct buys as [|h tl].
    + intros (? & ? & ? & ? & Hb & _); discriminate.
    + rewrite self_crossed_cons in Hn |- *. exact Hn.
  - intros b bs Ht -> Hp Hb.
    assert (Hadd : OrderList.add_order sells o = o :: sells).
    { destruct sells as [|h tl].
      - unfold OrderList.add_order, OrderList.add_order_attempt.
        rewrite compare_and_swap_head_same. reflexivity.
      - rewrite self_crossed_cons in Hn.
        assert (Hg : OrderList.goes_first o h = true).
        { apply (goes_first_side Sell o h Ht). unfold no_worse. lia. }
        unfold OrderList.add_order, OrderList.add_order_attempt.
        rewrite Hg, compare_and_swap_head_same. reflexivity. }
    unfold OrderBook.add_order. rewrite Ht. cbn [String.eqb Ascii.eqb Bool.eqb andb].
    cbn [OrderBook.buy_orders OrderBook.sell_orders]. rewrite Hadd.
    rewrite match_orders_unfold. unfold OrderBook.match_iter.
    cbn [OrderBook.buy_orders OrderBook.sell_orders].
    rewrite Z.geb_leb. destruct (Z.leb_spec (price o) (price b)); [|lia].
    rewrite Z.min_r by lia. cbn [quantity set_quantity].
    rewrite Z.sub_diag. cbn [Z.eqb OrderList.pop_head snd].
    destruct (Z.eqb_spec (quantity b - quantity o) 0); [lia|].
    rewrite not_crossed_no_trades; [reflexivity|].
    destruct sells as [|h tl].
    + intros (? & ? & ? & ? & _ & Hs0 & _); discriminate.
    + rewrite self_crossed_cons in Hn |- *. exact Hn.
Qed.

Lemma X20_non_positive_quantity_witness :
  let s := mkOrder "Sell" "STOCK1" 5 100 1 in
  let self := OrderBook.mk [] [s] in
  let o := mkOrder "Buy" "STOCK1" (-3) 100 2 in
  ~ self_crossed self /\ quantity o <= 0
  /\ OrderBook.add_order self o
     = ([OrderBook.mkTrade o s (-3) 100],
        OrderBook.mk [] [mkOrder "Sell" "STOCK1" 8 100 1]).
Proof.
  cbv zeta.
  assert (Hn : ~ self_crossed (OrderBook.mk [] [mkOrder "Sell" "STOCK1" 5 100 1])).
  { apply crosses_self_crossed. reflexivity. }
  assert (Hq : quantity (mkOrder "Buy" "STOCK1" (-3) 100 2) <= 0) by (cbn; lia).
  split; [exact Hn|]. split; [exact Hq|].
  apply (proj1 (X20_non_positive_quantity _ _ Hn Hq)
           (mkOrder "Sell" "STOCK1" 5 100 1) [] eq_refl eq_refl); cbn; lia.
Defined.

(** ** Sorted queues *)

Lemma sorted_drop s n (l : OrderList.t) : sorted s l -> sorted s (drop n l).
Proof.
  revert l. induction n as [|n IH]; intros l Hs; [exact Hs|].
  destruct l as [|h tl]; [exact Hs|]. cbn.
  apply IH. apply Sorted_inv in Hs as [Hs _]. exact Hs.
Qed.

Lemma consumed_from_head_sorted s (l' l : OrderList.t) :
  consumed_from_head l' l -> sorted s l -> sorted s l'.
Proof.
  intros [n H] Hs. pose proof (sorted_drop s n l Hs) as Hd.
  destruct H as [->|(h & q & rest & E & ->)]; [exact Hd|].
  rewrite E in Hd. apply set_quantity_sorted. exact Hd.
Qed.

Lemma book_add_order_buy_sorted self o :
  sorted Buy (OrderBook.buy_orders self) ->
  sorted Buy (OrderBook.buy_orders (snd (OrderBook.add_order self o))).
Proof.
  intros Hs. unfold OrderBook.add_order.
  match goal with |- context [OrderBook.match_orders ?b] =>
    destruct (match_orders_consumed b) as [Cb _] end.
  eapply consumed_from_head_sorted; [exact Cb|].
  destruct (String.eqb (order_type o) "Buy") eqn:Ht; cbn; [|exact Hs].
  apply String.eqb_eq in Ht. apply (add_order_sorted Buy); assumption.
Qed.

Lemma book_add_order_sell_sorted self o :
  order_type o = "Buy"%string \/ order_type o = "Sell"%string ->
  sorted Sell (OrderBook.sell_orders self) ->
  sorted Sell (OrderBook.sell_orders (snd (OrderBook.add_order self o))).
Proof.
  intros Ht Hs. unfold OrderBook.add_order.
  match goal with |- context [OrderBook.match_orders ?b] =>
    destruct (match_orders_consumed b) as [_ Cs] end.
  eapply consumed_from_head_sorted; [exact Cs|].
  destruct Ht as [Ht|Ht]; rewrite Ht; cbn; [exact Hs|].
  apply (add_order_sorted Sell); assumption.
Qed.

Lemma submit_all_sorted orders : forall self,
  sorted Buy (OrderBook.buy_orders self) ->
  sorted Buy (OrderBook.buy_orders (snd (submit_all self orders)))
  /\ (Forall (fun o => order_type o = "Buy"%string \/ order_type o = "Sell"%string)
        orders ->
      sorted Sell (OrderBook.sell_orders self) ->
      sorted Sell (OrderBook.sell_orders (snd (submit_all self orders)))).
Proof.
  induction orders as [|o orders IH]; intros self Hb; cbn [submit_all].
  - split; [exact Hb|]. intros _ Hs. exact Hs.
  - pose proof (book_add_order_buy_sorted self o Hb) as Hb'.
    pose proof (book_add_order_sell_sorted self o) as Hs'.
    destruct (OrderBook.add_order self o) as [ts self'].
    destruct (IH self' Hb') as [IHb IHs].
    destruct (submit_all self' orders) as [ts' self'']. cbn [snd] in *.
    split; [exact IHb|].
    intros Hty Hs. apply Forall_cons in Hty as [Ho Hty].
    apply IHs; [exact Hty|]. apply Hs'; assumption.
Qed.

Lemma sorted_buy_prices (l : OrderList.t) :
  sorted Buy l -> Sorted (fun a b => price a >= price b) l.
Proof.
  intros Hs. eapply Sorted_ind with (P := Sorted _); [constructor| |exact Hs].
  intros a l0 _ IH Hh. constructor; [exact IH|].
  destruct Hh; constructor. unfold no_worse in *. lia.
Qed.

(** X21. A queue that only ever receives ['Buy'] orders, through
    [OrderList.add_order], [pop_head] and the quantity updates of the
    matching loop, has non-increasing prices from head to tail with the
    best price at the head; a queue that only ever receives ['Sell']
    orders has non-decreasing prices with the best price at the head.  In
    a book filled from the empty book by [OrderBook.add_order], the Buy
    queue is sorted whatever the types of the submitted orders, and the
    Sell queue is sorted when every submitted order has type ['Buy'] or
    ['Sell']. *)
Theorem X21_sorted_queues :
  (forall l,
      reachable (fun o => order_type o = "Buy"%string) l ->
      Sorted (fun a b => price a >= price b) l
      /\ forall h tl, l = h :: tl -> Forall (fun o => price o <= price h) tl)
  /\ (forall l,
        reachable (fun o => order_type o = "Sell"%string) l ->
        Sorted (fun a b => price a <= price b) l
        /\ forall h tl, l = h :: tl -> Forall (fun o => price h <= price o) tl)
  /\ (forall orders,
        Sorted (fun a b => price a >= price b)
               (OrderBook.buy_orders (snd (submit_all OrderBook.init orders)))
        /\ (Forall (fun o => order_type o = "Buy"%string
                             \/ order_type o = "Sell"%string) orders ->
            Sorted (fun a b => price a <= price b)
                   (OrderBook.sell_orders (snd (submit_all OrderBook.init orders))))).
Proof.
  split; [|split].
  - intros l Hr.
    apply (reachable_sorted Buy) in Hr; [|intros o Ho; exact Ho].
    split; [apply sorted_buy_prices; exact Hr|].
    intros h tl Hl. exact (sorted_head_is_best Buy l Hr h tl Hl).
  - intros l Hr.
    apply (reachable_sorted Sell) in Hr; [|intros o Ho; exact Ho].
    split; [exact Hr|].
    intros h tl Hl. exact (sorted_head_is_best Sell l Hr h tl Hl).
  - intros orders.
    destruct (submit_all_sorted orders OrderBook.init) as [Hb Hs]; [constructor|].
    split; [apply sorted_buy_prices; exact Hb|].
    intros Hty. apply Hs; [exact Hty|constructor].
Qed.

Lemma X21_sorted_queues_witness :
  let l := OrderList.add_order
             (OrderList.add_order OrderList.init (mkOrder "Buy" "STOCK1" 5 100 1))
             (mkOrder "Buy" "STOCK1" 5 105 2) in
  reachable (fun o => order_type o = "Buy"%string) l
  /\ Sorted (fun a b => price a >= price b) l.
Proof.
  cbv zeta.
  assert (Hr : reachable (fun o => order_type o = "Buy"%string)
                 (OrderList.add_order
                    (OrderList.add_order OrderList.init (mkOrder "Buy" "STOCK1" 5 100 1))
                    (mkOrder "Buy" "STOCK1" 5 105 2))).
  { apply reach_add; [apply reach_add; [apply reach_init|reflexivity]|reflexivity]. }
  split; [exact Hr|].
  exact (proj1 (proj1 X21_sorted_queues _ Hr)).
Defined.
